(** * JSONLoader: a shallow embedding of [src/utils/JSONLoader.py]

    The loader reads one JSON file, walks the top-level value and turns every
    element into a [Document] made of a content and a metadata value.

    - [Py]: the fragment of Python the four methods run on (values, the
      exception classes that can occur, dictionaries kept in insertion
      order, iteration, truth values);
    - [IO]: files, standard output, [with] and [try];
    - [PyRuntime]: what the interpreter and its libraries supply and the
      repository does not define ([json.load], [Path.resolve], the rendering
      of floats and of quoted strings);
    - [PyFormat]: [str()] and [repr()] over such a runtime;
    - [JSONLoader]: the class itself, method by method;
    - [Reference], [ReferenceRuntime], [Scenarios]: one runtime to run the
      loader on concrete files;
    - [Spec]: the vocabulary of the specification;
    - the properties, each stated for every runtime. *)

From Stdlib Require Import String Ascii List ZArith Bool DecimalString Lia.
Import ListNotations.

Local Open Scope list_scope.
Local Open Scope string_scope.
Local Set Warnings "-register-all".

(** ** Python values and exceptions *)

Module Py.

(** The values [json.load] can build.  A Python [str] is kept as the Rocq
    string of its UTF-8 bytes, an [int] as a [Z]; a [float] is kept as the
    literal it was read from (two floats written alike are the same float),
    and a [dict] as its items in insertion order. *)
Inductive pyval : Type :=
| PyNone
| PyBool (b : bool)
| PyInt (n : Z)
| PyFloat (literal : string)
| PyStr (s : string)
| PyList (elements : list pyval)
| PyDict (items : list (string * pyval)).

(** Exception classes.  [ValidationError] is the one [Document] raises for a
    field of the wrong type; [UserError] stands for any class of the
    caller's own that derives directly from [Exception]. *)
Inductive exn : Type :=
| OSError
| FileNotFoundError
| PermissionError
| IsADirectoryError
| NotADirectoryError
| ValueError
| UnicodeError
| UnicodeDecodeError
| JSONDecodeError
| TypeError
| AttributeError
| KeyError
| RuntimeError
| RecursionError
| ValidationError
| UserError (name : string).

Definition exn_eq_dec (a b : exn) : {a = b} + {a <> b}.
Proof. decide equality. apply string_dec. Defined.

Definition exn_eqb (a b : exn) : bool :=
  if exn_eq_dec a b then true else false.

(** The proper ancestors of a class, nearest first, up to (and without)
    [Exception]. *)
Definition bases (e : exn) : list exn :=
  match e with
  | FileNotFoundError | PermissionError
  | IsADirectoryError | NotADirectoryError => [OSError]
  | UnicodeError | JSONDecodeError | ValidationError => [ValueError]
  | UnicodeDecodeError => [UnicodeError; ValueError]
  | RecursionError => [RuntimeError]
  | _ => []
  end.

(** [isinstance e cls]: what an [except cls:] clause tests. *)
Definition isinstance (e cls : exn) : bool :=
  existsb (exn_eqb cls) (e :: bases e).

(** A call either returns a value or raises. *)
Inductive outcome (A : Type) : Type :=
| Returns (a : A)
| Raises (e : exn).

Arguments Returns {A} a.
Arguments Raises {A} e.

Definition obind {A B} (c : outcome A) (k : A -> outcome B) : outcome B :=
  match c with
  | Returns a => k a
  | Raises e => Raises e
  end.

(** *** Dictionaries *)

(** [d[key]] looked up in the item list: the first item with that key. *)
Fixpoint dict_lookup (key : string) (items : list (string * pyval))
  : option pyval :=
  match items with
  | [] => None
  | (k, v) :: rest => if String.eqb key k then Some v else dict_lookup key rest
  end.

(** [d[key] = v]: a key already there keeps its place and takes the new
    value, a new key goes last. *)
Fixpoint dict_set (key : string) (v : pyval) (items : list (string * pyval))
  : list (string * pyval) :=
  match items with
  | [] => [(key, v)]
  | (k, w) :: rest =>
      if String.eqb key k then (k, v) :: rest
      else (k, w) :: dict_set key v rest
  end.

Definition dict_keys (items : list (string * pyval)) : list string :=
  map fst items.

(** The item lists that are dictionaries: no key twice. *)
Definition dict_wf (items : list (string * pyval)) : Prop :=
  NoDup (dict_keys items).

(** [item.get(key, default)]; only a [dict] has the method. *)
Definition py_get (item : pyval) (key : string) (default : pyval)
  : outcome pyval :=
  match item with
  | PyDict items =>
      Returns (match dict_lookup key items with
               | Some v => v
               | None => default
               end)
  | _ => Raises AttributeError
  end.

(** [item.items()]; only a [dict] has the method. *)
Definition py_items (item : pyval) : outcome (list (string * pyval)) :=
  match item with
  | PyDict items => Returns items
  | _ => Raises AttributeError
  end.

(** *** Strings *)

(** [sep.join(parts)]. *)
Fixpoint str_join (sep : string) (parts : list string) : string :=
  match parts with
  | [] => ""
  | [p] => p
  | p :: rest => p ++ sep ++ str_join sep rest
  end.

(** A UTF-8 continuation byte is [10xxxxxx]. *)
Definition is_continuation (c : ascii) : bool :=
  let n := nat_of_ascii c in (128 <=? n)%nat && (n <? 192)%nat.

Definition starts_with_continuation (s : string) : bool :=
  match s with
  | String c _ => is_continuation c
  | EmptyString => false
  end.

(** The characters of a [str], each with its continuation bytes. *)
Fixpoint str_chars (s : string) : list string :=
  match s with
  | EmptyString => []
  | String c rest =>
      match str_chars rest with
      | ch :: chs =>
          if starts_with_continuation ch then String c ch :: chs
          else String c EmptyString :: ch :: chs
      | [] => [String c EmptyString]
      end
  end.

(** [str(n)] for an [int]. *)
Definition int_str (n : Z) : string :=
  NilZero.string_of_int (Z.to_int n).

(** *** Iteration and truth *)

(** [for item in data]: a list yields its elements, a [dict] its keys, a
    [str] its characters; nothing else read from JSON is iterable. *)
Definition py_iter (data : pyval) : outcome (list pyval) :=
  match data with
  | PyList elements => Returns elements
  | PyDict items => Returns (map PyStr (dict_keys items))
  | PyStr s => Returns (map PyStr (str_chars s))
  | _ => Raises TypeError
  end.

(** The truth value of a [str]: only the empty one is false. *)
Definition str_truthy (s : string) : bool :=
  match s with
  | EmptyString => false
  | String _ _ => true
  end.

End Py.

Import Py.

(** ** Sequencing

    One notation for the two effects of the program: a call that may raise
    ([outcome]) and a call that may raise and acts on the world ([IO.M]). *)

Class Monad (m : Type -> Type) : Type := {
  ret : forall {A}, A -> m A;
  bind : forall {A B}, m A -> (A -> m B) -> m B
}.

Declare Scope py_scope.
Delimit Scope py_scope with py.
Notation "x <- c ;; k" := (bind c (fun x => k))
  (at level 61, c at next level, right associativity) : py_scope.
Notation "c ;; k" := (bind c (fun _ => k))
  (at level 61, right associativity) : py_scope.
Local Open Scope py_scope.

#[global] Instance Monad_outcome : Monad outcome := {
  ret := @Returns;
  bind := @obind
}.

(** ** Files and standard output *)

Module IO.

(** Why [open] fails, as the operating system reports it. *)
Inductive errno : Type :=
| ENOENT | EACCES | EPERM | EISDIR | ENOTDIR | ELOOP | ENAMETOOLONG | EMFILE.

(** The exception class [open] raises for an error number: the subclasses of
    [OSError] where there is one, [OSError] itself otherwise. *)
Definition oserror_of (e : errno) : exn :=
  match e with
  | ENOENT => FileNotFoundError
  | EACCES | EPERM => PermissionError
  | EISDIR => IsADirectoryError
  | ENOTDIR => NotADirectoryError
  | ELOOP | ENAMETOOLONG | EMFILE => OSError
  end.

(** What the process does to the outside, in order. *)
Inductive event : Type :=
| Opened (path : string)
| Closed (path : string)
| Printed (line : string).

(** The world: for every path, the bytes of the file there or the reason it
    cannot be opened for reading; and what the process has done so far. *)
Record world : Type := {
  files : string -> errno + string;
  trace : list event
}.

Definition emit (ev : event) (w : world) : world :=
  {| files := files w; trace := (trace w ++ [ev])%list |}.

(** A computation acts on the world and returns or raises. *)
Definition M (A : Type) : Type := world -> outcome A * world.

Definition mret {A} (a : A) : M A := fun w => (Returns a, w).

Definition mbind {A B} (c : M A) (k : A -> M B) : M B :=
  fun w =>
    match c w with
    | (Returns a, w') => k a w'
    | (Raises e, w') => (Raises e, w')
    end.

(** A call that does not touch the world. *)
Definition lift {A} (c : outcome A) : M A := fun w => (c, w).

(** A call that reads the world and leaves it as it is. *)
Definition inspect {A} (c : world -> outcome A) : M A := fun w => (c w, w).

(** [print(line)]. *)
Definition print (line : string) : M unit :=
  fun w => (Returns tt, emit (Printed line) w).

(** An open text file. *)
Record file : Type := { name : string; contents : string }.

(** [with open(path, mode="r", encoding="utf-8") as f: body]: when [open]
    raises, the body does not run; when it returns, the file is closed
    however the body ends. *)
Definition with_open {A} (path : string) (body : file -> M A) : M A :=
  fun w =>
    match files w path with
    | inl e => (Raises (oserror_of e), w)
    | inr bytes =>
        let f := {| name := path; contents := bytes |} in
        let (r, w') := body f (emit (Opened path) w) in
        (r, emit (Closed path) w')
    end.

(** [try: body  except cls: handler]. *)
Definition try_except {A} (body : M A) (cls : exn) (handler : M A) : M A :=
  fun w =>
    match body w with
    | (Raises e, w') =>
        if isinstance e cls then handler w' else (Raises e, w')
    | returned => returned
    end.

End IO.

#[global] Instance Monad_IO : Monad IO.M := {
  ret := @IO.mret;
  bind := @IO.mbind
}.

(** ** What the interpreter supplies

    The repository calls into the interpreter and its libraries; none of the
    following is defined by it, so the loader is modelled over any
    implementation of them.

    - [json_load contents] is [json.load(f)] for an open text file [f] whose
      bytes are [contents]: it reads, decodes and parses, and returns the
      parsed value or raises ([JSONDecodeError] for text that is not JSON,
      [UnicodeDecodeError] for bytes that are not UTF-8, ...).
    - [Path_resolve w p] is [Path(p).resolve()] in the world [w]: the
      absolute form of [p], which it finds by reading the working directory
      and the links on the way, or the exception it raises (a path it
      cannot handle, links that form a loop).  It is called without
      [strict], so it is not asked for the path to exist.
    - [float_repr] is [repr] of the float read from a literal, [str_repr] is
      [repr] of a [str] (quotes and escapes). *)
Class PyRuntime : Type := {
  json_load : string -> outcome pyval;
  Path_resolve : IO.world -> string -> outcome string;
  float_repr : string -> string;
  str_repr : string -> string
}.

(** ** [str()] and [repr()] of a value *)

Module PyFormat.
Section Format.
Context {rt : PyRuntime}.

(** [repr(v)]: a list is rendered as its elements' [repr] between brackets,
    a [dict] as [repr(key): repr(value)] pairs between braces. *)
Fixpoint py_repr (v : pyval) : string :=
  match v with
  | PyNone => "None"
  | PyBool true => "True"
  | PyBool false => "False"
  | PyInt n => int_str n
  | PyFloat literal => float_repr literal
  | PyStr s => str_repr s
  | PyList elements => "[" ++ str_join ", " (map py_repr elements) ++ "]"
  | PyDict items =>
      "{" ++ str_join ", "
               (map (fun kv => str_repr (fst kv) ++ ": " ++ py_repr (snd kv))
                    items)
          ++ "}"
  end.

(** [str(v)]: a [str] is itself, every other value is its [repr]. *)
Definition py_str (v : pyval) : string :=
  match v with
  | PyStr s => s
  | _ => py_repr v
  end.

(** A replacement field [{v}] of an f-string with no format spec. *)
Definition fmt (v : pyval) : string := py_str v.

End Format.
End PyFormat.

(** ** The class *)

Module JSONLoader.

(** Modelled from the spec: [Document] of [langchain_core.documents], which
    the repository imports and does not define.  A value with two fields,
    the content, a string, and the metadata, a mapping, made once per
    record. *)
Record Document : Type := {
  page_content : pyval;
  metadata : pyval
}.

(** Modelled from the spec: the call [Document(page_content=..., metadata=...)].
    The class checks the types of its fields: a content that is not a
    string or a metadata that is not a mapping raises [ValidationError],
    and nothing is converted. *)
Definition Document_new (page_content metadata : pyval) : outcome Document :=
  match page_content, metadata with
  | PyStr _, PyDict _ =>
      Returns {| page_content := page_content; metadata := metadata |}
  | _, _ => Raises ValidationError
  end.

(** The attributes [__init__] sets.  [_metadata_func] is a function of the
    item alone: it returns a value or raises, and does nothing else. *)
Record Loader : Type := {
  file_path : string;
  _content_key : option string;
  _metadata_func : option (pyval -> outcome pyval)
}.

(** The one-character string of a line feed. *)
Definition LF : string := String (ascii_of_nat 10) EmptyString.

Section Methods.
Context {rt : PyRuntime}.
Import PyFormat.

(** [__init__(self, file_path, content_key=None, metadata_func=None)]. *)
Definition __init__ (file_path : string) (content_key : option string)
    (metadata_func : option (pyval -> outcome pyval)) : IO.M Loader :=
  resolved <- IO.inspect (fun w => Path_resolve w file_path) ;;
  ret {| file_path := resolved;
         _content_key := content_key;
         _metadata_func := metadata_func |}.

(** ["\n".join([f"{key}: {value}" for key, value in item.items()])]. *)
Definition joined_fields (item : pyval) : outcome pyval :=
  fields <- py_items item ;;
  ret (PyStr (str_join LF
                (map (fun kv => fmt (PyStr (fst kv)) ++ ": " ++ fmt (snd kv))
                     fields))).

(** [get_content(self, item)].  [if self._content_key:] is the truth value
    of the attribute: [None] and [""] both fall through to the last line. *)
Definition get_content (self : Loader) (item : pyval) : outcome pyval :=
  match _content_key self with
  | Some key =>
      if str_truthy key then py_get item key (PyStr "")
      else joined_fields item
  | None => joined_fields item
  end.

(** [self._metadata_func(item) if self._metadata_func else {}].  A function
    object is true, so the test is whether the attribute is [None]. *)
Definition metadata_of (self : Loader) (item : pyval) : outcome pyval :=
  match _metadata_func self with
  | Some metadata_func => metadata_func item
  | None => ret (PyDict [])
  end.

(** The body of [for item in data:], with the list [documents] built so
    far. *)
Fixpoint for_items (self : Loader) (rest : list pyval)
    (documents : list Document) : outcome (list Document) :=
  match rest with
  | [] => ret documents
  | item :: rest' =>
      content <- get_content self item ;;
      metadata <- metadata_of self item ;;
      document <- Document_new content metadata ;;
      for_items self rest' (documents ++ [document])%list
  end.

(** [create_documents(self, data)]. *)
Definition create_documents (self : Loader) (data : pyval)
  : outcome (list Document) :=
  items <- py_iter data ;;
  for_items self items [].

(** What [load] prints when the [except] clause runs. *)
Definition invalid_json_message : string := "Error: Invalid JSON format".

(** [load(self)].  [docs] starts as the empty list; the [try] body assigns
    it only when both of its statements return. *)
Definition load (self : Loader) : IO.M (list Document) :=
  let docs := [] in
  IO.with_open (file_path self) (fun json_file =>
    IO.try_except
      (data <- IO.lift (json_load (IO.contents json_file)) ;;
       docs <- IO.lift (create_documents self data) ;;
       ret docs)
      JSONDecodeError
      (IO.print invalid_json_message ;;
       ret docs)).

End Methods.
End JSONLoader.

(** ** A reference runtime

    One implementation of [PyRuntime], to run the loader on concrete files.
    [decode] follows the scanner of CPython's [json] module (the grammar it
    accepts, [NaN] and the infinities included, a repeated key keeping its
    first place and its last value); the interpreter's limits on nesting
    depth and on the digits of an integer are not part of it.  The general
    theorems below hold for every runtime and do not depend on this one. *)

Module Reference.

Definition DQUOTE : ascii := ascii_of_nat 34.
Definition BACKSLASH : ascii := ascii_of_nat 92.

(** JSON text written with single quotes in place of double quotes, so that
    examples read as the files they stand for. *)
Fixpoint json_text (s : string) : string :=
  match s with
  | EmptyString => EmptyString
  | String c rest =>
      String (if Ascii.eqb c "'"%char then DQUOTE else c) (json_text rest)
  end.

(** The result of scanning a prefix of the input. *)
Inductive scan (A : Type) : Type :=
| Scanned (a : A) (rest : string)
| Invalid
| TooDeep.

Arguments Scanned {A} a rest.
Arguments Invalid {A}.
Arguments TooDeep {A}.

(** *** UTF-8 *)

Definition byte_in (lo hi : N) (c : ascii) : bool :=
  let n := N_of_ascii c in (lo <=? n)%N && (n <=? hi)%N.

(** Whether the bytes are well-formed UTF-8 (shortest forms only, no
    surrogates, nothing above U+10FFFF). *)
Fixpoint utf8_valid (s : string) : bool :=
  match s with
  | EmptyString => true
  | String a r1 =>
      if byte_in 0 127 a then utf8_valid r1
      else
        match r1 with
        | String b r2 =>
            if byte_in 194 223 a then byte_in 128 191 b && utf8_valid r2
            else
              match r2 with
              | String c r3 =>
                  if byte_in 224 239 a then
                    (if byte_in 224 224 a then byte_in 160 191 b
                     else if byte_in 237 237 a then byte_in 128 159 b
                     else byte_in 128 191 b)
                    && byte_in 128 191 c && utf8_valid r3
                  else
                    match r3 with
                    | String d r4 =>
                        byte_in 240 244 a
                        && (if byte_in 240 240 a then byte_in 144 191 b
                            else if byte_in 244 244 a then byte_in 128 143 b
                            else byte_in 128 191 b)
                        && byte_in 128 191 c && byte_in 128 191 d
                        && utf8_valid r4
                    | EmptyString => false
                    end
              | EmptyString => false
              end
        | EmptyString => false
        end
  end.

Definition byte (n : N) : ascii := ascii_of_N n.

(** The UTF-8 bytes of a code point (a lone surrogate is written in the same
    three-byte form). *)
Definition utf8_encode (cp : N) : string :=
  (if cp <? 128 then String (byte cp) EmptyString
   else if cp <? 2048 then
     String (byte (192 + cp / 64))
       (String (byte (128 + cp mod 64)) EmptyString)
   else if cp <? 65536 then
     String (byte (224 + cp / 4096))
       (String (byte (128 + (cp / 64) mod 64))
          (String (byte (128 + cp mod 64)) EmptyString))
   else
     String (byte (240 + cp / 262144))
       (String (byte (128 + (cp / 4096) mod 64))
          (String (byte (128 + (cp / 64) mod 64))
             (String (byte (128 + cp mod 64)) EmptyString))))%N.

(** *** Tokens *)

Definition is_ws (c : ascii) : bool :=
  Ascii.eqb c " "%char || byte_in 9 10 c || byte_in 13 13 c.

Fixpoint skip_ws (s : string) : string :=
  match s with
  | String c rest => if is_ws c then skip_ws rest else s
  | EmptyString => s
  end.

Definition is_digit (c : ascii) : bool := byte_in 48 57 c.

(** The longest prefix of digits, and what follows it. *)
Fixpoint take_digits (s : string) : string * string :=
  match s with
  | String c rest =>
      if is_digit c then
        let (ds, rest') := take_digits rest in (String c ds, rest')
      else (EmptyString, s)
  | EmptyString => (EmptyString, s)
  end.

Fixpoint digits_value (acc : Z) (ds : string) : Z :=
  match ds with
  | String c rest =>
      digits_value (10 * acc + Z.of_N (N_of_ascii c) - 48)%Z rest
  | EmptyString => acc
  end.

Definition hex_value (c : ascii) : option N :=
  let n := N_of_ascii c in
  (if byte_in 48 57 c then Some (n - 48)
   else if byte_in 97 102 c then Some (n - 87)
   else if byte_in 65 70 c then Some (n - 55)
   else None)%N.

Definition hex4 (a b c d : ascii) : option N :=
  match hex_value a, hex_value b, hex_value c, hex_value d with
  | Some x, Some y, Some z, Some w => Some (((x * 16 + y) * 16 + z) * 16 + w)%N
  | _, _, _, _ => None
  end.

(** A piece of a string literal: bytes copied from the input, or the 16-bit
    unit of a [\uXXXX] escape. *)
Inductive piece : Type :=
| Raw (c : ascii)
| Unit16 (u : N).

Definition simple_escape (c : ascii) : option ascii :=
  if Ascii.eqb c DQUOTE then Some DQUOTE
  else if Ascii.eqb c BACKSLASH then Some BACKSLASH
  else if Ascii.eqb c "/"%char then Some "/"%char
  else if Ascii.eqb c "b"%char then Some (byte 8)
  else if Ascii.eqb c "f"%char then Some (byte 12)
  else if Ascii.eqb c "n"%char then Some (byte 10)
  else if Ascii.eqb c "r"%char then Some (byte 13)
  else if Ascii.eqb c "t"%char then Some (byte 9)
  else None.

(** The pieces of a string literal whose opening quote has been read, up to
    the closing quote.  A control character, an unknown escape and the end
    of the input are errors. *)
Fixpoint scan_pieces (s : string) : scan (list piece) :=
  match s with
  | EmptyString => Invalid
  | String c rest =>
      if Ascii.eqb c DQUOTE then Scanned [] rest
      else if byte_in 0 31 c then Invalid
      else if Ascii.eqb c BACKSLASH then
        match rest with
        | String e rest1 =>
            if Ascii.eqb e "u"%char then
              match rest1 with
              | String h1 (String h2 (String h3 (String h4 rest2))) =>
                  match hex4 h1 h2 h3 h4, scan_pieces rest2 with
                  | Some u, Scanned ps rest3 => Scanned (Unit16 u :: ps) rest3
                  | _, _ => Invalid
                  end
              | _ => Invalid
              end
            else
              match simple_escape e, scan_pieces rest1 with
              | Some b, Scanned ps rest2 => Scanned (Raw b :: ps) rest2
              | _, _ => Invalid
              end
        | EmptyString => Invalid
        end
      else
        match scan_pieces rest with
        | Scanned ps rest1 => Scanned (Raw c :: ps) rest1
        | other => other
        end
  end.

(** The text of the pieces: a high surrogate directly followed by a low one
    is the code point of the pair. *)
Fixpoint assemble (ps : list piece) : string :=
  match ps with
  | [] => EmptyString
  | Raw c :: rest => String c (assemble rest)
  | Unit16 hi :: rest =>
      match rest with
      | Unit16 lo :: rest' =>
          if ((55296 <=? hi) && (hi <=? 56319)
              && (56320 <=? lo) && (lo <=? 57343))%N
          then utf8_encode (65536 + (hi - 55296) * 1024 + (lo - 56320))%N
               ++ assemble rest'
          else utf8_encode hi ++ assemble rest
      | _ => utf8_encode hi ++ assemble rest
      end
  end.

Definition scan_string (s : string) : scan string :=
  match scan_pieces s with
  | Scanned ps rest => Scanned (assemble ps) rest
  | Invalid => Invalid
  | TooDeep => TooDeep
  end.

(** *** Numbers *)

(** The integer part at the head of the input: an optional minus sign, then
    a single zero or a digit other than zero followed by any digits. *)
Definition scan_integer (s : string) : option (string * string) :=
  let (sign, s1) :=
    match s with
    | String c rest =>
        if Ascii.eqb c "-"%char then ("-", rest) else (EmptyString, s)
    | EmptyString => (EmptyString, s)
    end in
  match s1 with
  | String c rest =>
      if Ascii.eqb c "0"%char then Some (sign ++ "0", rest)
      else if is_digit c then
        let (ds, rest') := take_digits s1 in Some (sign ++ ds, rest')
      else None
  | EmptyString => None
  end.

(** The fraction when there is one (a dot and at least one digit); the
    empty string and the input as it is otherwise. *)
Definition scan_fraction (s : string) : string * string :=
  match s with
  | String c rest =>
      if Ascii.eqb c "."%char then
        match take_digits rest with
        | (EmptyString, _) => (EmptyString, s)
        | (ds, rest') => (String c ds, rest')
        end
      else (EmptyString, s)
  | EmptyString => (EmptyString, s)
  end.

(** The exponent when there is one: the letter e in either case, an
    optional sign, at least one digit. *)
Definition scan_exponent (s : string) : string * string :=
  match s with
  | String e rest =>
      if Ascii.eqb e "e"%char || Ascii.eqb e "E"%char then
        let (sign, rest1) :=
          match rest with
          | String c rest' =>
              if Ascii.eqb c "-"%char || Ascii.eqb c "+"%char
              then (String c EmptyString, rest')
              else (EmptyString, rest)
          | EmptyString => (EmptyString, rest)
          end in
        match take_digits rest1 with
        | (EmptyString, _) => (EmptyString, s)
        | (ds, rest2) => (String e (sign ++ ds), rest2)
        end
      else (EmptyString, s)
  | EmptyString => (EmptyString, s)
  end.

Definition integer_value (text : string) : Z :=
  match text with
  | String c ds =>
      if Ascii.eqb c "-"%char then (- digits_value 0 ds)%Z
      else digits_value 0 text
  | EmptyString => 0%Z
  end.

(** A number: an [int] when it has neither fraction nor exponent, a [float]
    otherwise. *)
Definition scan_number (s : string) : option (pyval * string) :=
  match scan_integer s with
  | Some (integer, rest) =>
      let (frac, rest1) := scan_fraction rest in
      let (exp, rest2) := scan_exponent rest1 in
      match frac, exp with
      | EmptyString, EmptyString => Some (PyInt (integer_value integer), rest2)
      | _, _ => Some (PyFloat (integer ++ frac ++ exp), rest2)
      end
  | None => None
  end.

(** [strip_prefix p s]: what follows [p] in [s], when [s] starts with it. *)
Fixpoint strip_prefix (p s : string) : option string :=
  match p, s with
  | EmptyString, _ => Some s
  | String a p', String b s' =>
      if Ascii.eqb a b then strip_prefix p' s' else None
  | String _ _, EmptyString => None
  end.

(** The values that are neither strings nor containers: the three names,
    then a number, then the constants Python accepts besides. *)
Definition scan_atom (s : string) : scan pyval :=
  match strip_prefix "null" s, strip_prefix "true" s,
        strip_prefix "false" s with
  | Some rest, _, _ => Scanned PyNone rest
  | _, Some rest, _ => Scanned (PyBool true) rest
  | _, _, Some rest => Scanned (PyBool false) rest
  | None, None, None =>
      match scan_number s with
      | Some (v, rest) => Scanned v rest
      | None =>
          match strip_prefix "NaN" s, strip_prefix "Infinity" s,
                strip_prefix "-Infinity" s with
          | Some rest, _, _ => Scanned (PyFloat "NaN") rest
          | _, Some rest, _ => Scanned (PyFloat "Infinity") rest
          | _, _, Some rest => Scanned (PyFloat "-Infinity") rest
          | None, None, None => Invalid
          end
      end
  end.

(** *** Values *)

(** [scan_once] reads the value at the head of the input; [scan_elements]
    reads the elements of an array from its first element on, and
    [scan_members] the members of an object from the quote of its first
    key on.  [depth] bounds the calls still allowed. *)
Fixpoint scan_once (depth : nat) (s : string) {struct depth} : scan pyval :=
  match depth with
  | O => TooDeep
  | S depth' =>
      match s with
      | EmptyString => Invalid
      | String c rest =>
          if Ascii.eqb c DQUOTE then
            match scan_string rest with
            | Scanned text rest1 => Scanned (PyStr text) rest1
            | Invalid => Invalid
            | TooDeep => TooDeep
            end
          else if Ascii.eqb c "{"%char then
            match skip_ws rest with
            | String c1 rest1 as body =>
                if Ascii.eqb c1 "}"%char then Scanned (PyDict []) rest1
                else
                  match scan_members depth' [] body with
                  | Scanned items rest2 => Scanned (PyDict items) rest2
                  | Invalid => Invalid
                  | TooDeep => TooDeep
                  end
            | EmptyString => Invalid
            end
          else if Ascii.eqb c "["%char then
            match skip_ws rest with
            | String c1 rest1 as body =>
                if Ascii.eqb c1 "]"%char then Scanned (PyList []) rest1
                else
                  match scan_elements depth' [] body with
                  | Scanned elements rest2 => Scanned (PyList elements) rest2
                  | Invalid => Invalid
                  | TooDeep => TooDeep
                  end
            | EmptyString => Invalid
            end
          else scan_atom s
      end
  end

with scan_elements (depth : nat) (seen : list pyval) (s : string)
    {struct depth} : scan (list pyval) :=
  match depth with
  | O => TooDeep
  | S depth' =>
      match scan_once depth' s with
      | Scanned v rest =>
          match skip_ws rest with
          | String c rest1 =>
              if Ascii.eqb c "]"%char then Scanned (seen ++ [v])%list rest1
              else if Ascii.eqb c ","%char then
                scan_elements depth' (seen ++ [v])%list (skip_ws rest1)
              else Invalid
          | EmptyString => Invalid
          end
      | Invalid => Invalid
      | TooDeep => TooDeep
      end
  end

with scan_members (depth : nat) (seen : list (string * pyval)) (s : string)
    {struct depth} : scan (list (string * pyval)) :=
  match depth with
  | O => TooDeep
  | S depth' =>
      match s with
      | String q rest =>
          if Ascii.eqb q DQUOTE then
            match scan_string rest with
            | Scanned key rest1 =>
                match skip_ws rest1 with
                | String colon rest2 =>
                    if Ascii.eqb colon ":"%char then
                      match scan_once depth' (skip_ws rest2) with
                      | Scanned v rest3 =>
                          let seen' := dict_set key v seen in
                          match skip_ws rest3 with
                          | String c rest4 =>
                              if Ascii.eqb c "}"%char then Scanned seen' rest4
                              else if Ascii.eqb c ","%char then
                                scan_members depth' seen' (skip_ws rest4)
                              else Invalid
                          | EmptyString => Invalid
                          end
                      | Invalid => Invalid
                      | TooDeep => TooDeep
                      end
                    else Invalid
                | EmptyString => Invalid
                end
            | Invalid => Invalid
            | TooDeep => TooDeep
            end
          else Invalid
      | EmptyString => Invalid
      end
  end.

(** [json.load] on a file with these bytes: the text must be UTF-8 and hold
    one value, with nothing but white space around it. *)
Definition decode (bytes : string) : outcome pyval :=
  if utf8_valid bytes then
    match scan_once (S (2 * String.length bytes)) (skip_ws bytes) with
    | Scanned v rest =>
        match skip_ws rest with
        | EmptyString => Returns v
        | String _ _ => Raises JSONDecodeError
        end
    | Invalid => Raises JSONDecodeError
    | TooDeep => Raises RecursionError
    end
  else Raises UnicodeDecodeError.

End Reference.

Module ReferenceRuntime.
Import Reference.

(** *** [repr] of a string and of a float *)

Definition contains (c : ascii) (s : string) : bool :=
  existsb (Ascii.eqb c) (list_ascii_of_string s).

Definition hex_digit (n : N) : ascii :=
  (if n <? 10 then byte (48 + n) else byte (87 + n))%N.

(** One character between quotes [q]: the quote and the backslash take a
    backslash, tab, line feed and carriage return their letter, the other
    control characters the form [\xhh].  Bytes of characters beyond ASCII are
    copied (such characters are taken to be printable). *)
Definition repr_char (q c : ascii) : string :=
  if Ascii.eqb c q || Ascii.eqb c BACKSLASH then
    String BACKSLASH (String c EmptyString)
  else if Ascii.eqb c (byte 9) then String BACKSLASH "t"
  else if Ascii.eqb c (byte 10) then String BACKSLASH "n"
  else if Ascii.eqb c (byte 13) then String BACKSLASH "r"
  else if byte_in 0 31 c || byte_in 127 127 c then
    String BACKSLASH
      (String "x"%char
         (String (hex_digit (N_of_ascii c / 16))
            (String (hex_digit (N_of_ascii c mod 16)) EmptyString)))
  else String c EmptyString.

(** [repr(s)]: single quotes, unless the text has a single quote and no
    double quote. *)
Definition quote_repr (s : string) : string :=
  let q :=
    if contains "'"%char s && negb (contains DQUOTE s) then DQUOTE
    else "'"%char in
  String q
    (String.concat EmptyString (map (repr_char q) (list_ascii_of_string s))
     ++ String q EmptyString).

(** [repr] of the float of a literal, for the three constants and for
    literals that are their own shortest form, such as [1.5]. *)
Definition literal_repr (literal : string) : string :=
  if String.eqb literal "NaN" then "nan"
  else if String.eqb literal "Infinity" then "inf"
  else if String.eqb literal "-Infinity" then "-inf"
  else literal.

(** Paths from the root are their own absolute form (no dots); the others
    are taken from the working directory [/work]. *)
Definition absolute (p : string) : string :=
  match p with
  | String c _ => if Ascii.eqb c "/"%char then p else "/work/" ++ p
  | EmptyString => "/work"
  end.

(** [Path(p).resolve()]: a path with a NUL character raises [ValueError],
    a path whose links form a loop raises [RuntimeError], and any other
    path, whether something is there or not, gives its absolute form. *)
Definition resolve (w : IO.world) (p : string) : outcome string :=
  if contains (byte 0) p then Raises ValueError
  else
    match IO.files w (absolute p) with
    | inl IO.ELOOP => Raises RuntimeError
    | _ => Returns (absolute p)
    end.

Definition runtime : PyRuntime := {|
  json_load := decode;
  Path_resolve := resolve;
  float_repr := literal_repr;
  str_repr := quote_repr
|}.

End ReferenceRuntime.

(** ** The words of the specification *)

Module Spec.
Import JSONLoader PyFormat.

(** A record is a mapping. *)
Definition is_mapping (v : pyval) : bool :=
  match v with
  | PyDict _ => true
  | _ => false
  end.

(** The field [key] of the record has the value [v]. *)
Definition has_field (items : list (string * pyval)) (key : string)
    (v : pyval) : Prop :=
  In (key, v) items.

(** The record has no field [key]. *)
Definition lacks_field (items : list (string * pyval)) (key : string)
  : Prop :=
  ~ In key (dict_keys items).

(** The world after a file was opened and closed, with [printed] in
    between. *)
Definition after_load (path : string) (printed : list IO.event)
    (w : IO.world) : IO.world :=
  IO.emit (IO.Closed path)
    (fold_left (fun w' ev => IO.emit ev w') printed
       (IO.emit (IO.Opened path) w)).

Section Words.
Context {rt : PyRuntime}.

(** The line ["<key>: <value>"] of a field, the value in its default string
    form. *)
Definition field_line (field : string * pyval) : string :=
  fst field ++ ": " ++ py_str (snd field).

(** One line per field, in the order of the record, joined by line feeds. *)
Definition field_lines (items : list (string * pyval)) : string :=
  String.concat LF (map field_line items).

(** The content extracted from the record is a string. *)
Definition content_is_str (self : Loader) (record : pyval) : Prop :=
  exists text, get_content self record = Returns (PyStr text).

(** The metadata of the record is a mapping: the empty one when there is no
    metadata function, what the function returns otherwise. *)
Definition metadata_is_mapping (self : Loader) (record : pyval) : Prop :=
  exists items, metadata_of self record = Returns (PyDict items).

(** The metadata function, when there is one, returns on this record. *)
Definition metadata_returns (self : Loader) (record : pyval) : Prop :=
  exists m, metadata_of self record = Returns m.

(** The document is the one made from the record: its content is what
    [get_content] extracts, its metadata what [metadata_of] gives. *)
Definition made_from (self : Loader) (record : pyval) (doc : Document)
  : Prop :=
  get_content self record = Returns (page_content doc)
  /\ metadata_of self record = Returns (metadata doc).

End Words.
End Spec.

(** ** Scenarios

    The files, loaders and worlds the examples run on, with the reference
    runtime. *)

Module Scenarios.
Import JSONLoader Reference ReferenceRuntime.

(** A world with one file and nothing done yet. *)
Definition disk (path bytes : string) : IO.world :=
  {| IO.files := fun p => if String.eqb p path then inr bytes
                          else inl IO.ENOENT;
     IO.trace := [] |}.

(** A world with no file at all. *)
Definition empty_disk : IO.world :=
  {| IO.files := fun _ => inl IO.ENOENT; IO.trace := [] |}.

Definition articles_path : string := "/work/articles.json".

Definition articles_json : string :=
  json_text
    "[{'title': 'A', 'body': 'hello'}, {'title': 'B', 'body': 'world'}]".

Definition article_A : pyval :=
  PyDict [("title", PyStr "A"); ("body", PyStr "hello")].

Definition article_B : pyval :=
  PyDict [("title", PyStr "B"); ("body", PyStr "world")].

(** [JSONLoader("articles.json", content_key="body")]. *)
Definition body_loader : Loader :=
  {| file_path := articles_path; _content_key := Some "body";
     _metadata_func := None |}.

(** [JSONLoader("articles.json")]. *)
Definition plain_loader : Loader :=
  {| file_path := articles_path; _content_key := None;
     _metadata_func := None |}.

(** [JSONLoader("articles.json", content_key="")]. *)
Definition empty_key_loader : Loader :=
  {| file_path := articles_path; _content_key := Some "";
     _metadata_func := None |}.

(** [lambda item: {"title": item.get("title", "")}]. *)
Definition title_metadata (item : pyval) : outcome pyval :=
  title <- py_get item "title" (PyStr "") ;;
  ret (PyDict [("title", title)]).

Definition titled_loader : Loader :=
  {| file_path := articles_path; _content_key := Some "body";
     _metadata_func := Some title_metadata |}.

(** [lambda item: json.loads(item.get("meta", "{}"))]: the metadata is kept
    in the record as JSON text. *)
Definition parsed_metadata (item : pyval) : outcome pyval :=
  meta <- py_get item "meta" (PyStr "{}") ;;
  match meta with
  | PyStr text => decode text
  | _ => Raises TypeError
  end.

Definition notes_path : string := "/work/notes.json".

Definition notes_loader : Loader :=
  {| file_path := notes_path; _content_key := Some "body";
     _metadata_func := Some parsed_metadata |}.

(** A well-formed file whose one record carries malformed text in its
    [meta] field. *)
Definition notes_json : string :=
  json_text "[{'body': 'x', 'meta': '{oops'}]".

(** A well-formed file whose array holds a number among the records. *)
Definition mixed_json : string :=
  json_text "[{'title': 'A', 'body': 'hello'}, 7]".

(** A well-formed file whose one record has [null] as its body. *)
Definition null_body_json : string :=
  json_text "[{'title': 'A', 'body': null}]".

(** A path with a NUL character in it. *)
Definition nul_path : string :=
  "a" ++ String (ascii_of_nat 0) "b".

(** A world where the links at [/work/loop.json] form a loop. *)
Definition loop_disk : IO.world :=
  {| IO.files := fun p => if String.eqb p "/work/loop.json" then inl IO.ELOOP
                          else inl IO.ENOENT;
     IO.trace := [] |}.

End Scenarios.

(** ** Properties *)

Import JSONLoader PyFormat Spec.

(** *** Dictionaries and joins *)

Lemma dict_lookup_absent (key : string) (items : list (string * pyval)) :
  lacks_field items key -> dict_lookup key items = None.
Proof.
  unfold lacks_field, dict_keys.
  induction items as [| [k v] rest IH]; intros Habsent; simpl in *.
  - reflexivity.
  - destruct (String.eqb_spec key k) as [-> | _].
    + exfalso. apply Habsent. now left.
    + apply IH. intro Hin. apply Habsent. now right.
Qed.

Lemma dict_lookup_present (key : string) (v : pyval)
    (items : list (string * pyval)) :
  dict_wf items -> has_field items key v -> dict_lookup key items = Some v.
Proof.
  unfold dict_wf, has_field, dict_keys.
  induction items as [| [k w] rest IH]; intros Hwf Hin; simpl in *.
  - contradiction.
  - inversion Hwf as [| ? ? Hfresh Hrest]; subst.
    destruct Hin as [Hhead | Htail].
    + inversion Hhead; subst. now rewrite String.eqb_refl.
    + destruct (String.eqb_spec key k) as [-> | _].
      * exfalso. apply Hfresh. apply (in_map fst) in Htail. exact Htail.
      * now apply IH.
Qed.

Lemma dict_set_keys (key : string) (v : pyval)
    (items : list (string * pyval)) (k : string) :
  In k (dict_keys (dict_set key v items)) ->
  k = key \/ In k (dict_keys items).
Proof.
  unfold dict_keys.
  induction items as [| [k0 w] rest IH]; simpl.
  - intros [<- | []]. now left.
  - destruct (String.eqb_spec key k0) as [-> | Hne]; simpl.
    + intros [<- | Hin]; auto.
    + intros [<- | Hin]; [auto |].
      destruct (IH Hin) as [-> | Hrest]; auto.
Qed.

(** Assignment keeps an item list a dictionary. *)
Lemma dict_set_wf (key : string) (v : pyval)
    (items : list (string * pyval)) :
  dict_wf items -> dict_wf (dict_set key v items).
Proof.
  unfold dict_wf.
  induction items as [| [k0 w] rest IH]; simpl; intros Hwf.
  - repeat constructor. intros [].
  - inversion Hwf as [| ? ? Hfresh Hrest]; subst.
    destruct (String.eqb_spec key k0) as [-> | Hne]; simpl.
    + now constructor.
    + constructor; [| now apply IH].
      intros Hin. apply dict_set_keys in Hin as [-> | Hin]; auto.
Qed.

Lemma str_join_concat (sep : string) (parts : list string) :
  str_join sep parts = String.concat sep parts.
Proof.
  induction parts as [| p rest IH]; [reflexivity |].
  simpl. destruct rest as [| q rest']; [reflexivity |].
  now rewrite IH.
Qed.

Section Properties.
Context {rt : PyRuntime}.

(** *** [get_content] *)

Lemma joined_fields_mapping (items : list (string * pyval)) :
  joined_fields (PyDict items) = Returns (PyStr (field_lines items)).
Proof.
  unfold joined_fields, field_lines. simpl.
  now rewrite str_join_concat.
Qed.

Lemma joined_fields_other (item : pyval) :
  is_mapping item = false -> joined_fields item = Raises AttributeError.
Proof. destruct item; simpl; intros H; try reflexivity; discriminate. Qed.

(** C4, as amended.  When [content_key] is set to a string that is not
    empty, the content of a record is exactly the value of that field when
    the record has it, and the empty string when it has not; no exception is
    raised in either case. *)
Theorem get_content_with_key (self : Loader) (key : string)
    (items : list (string * pyval)) :
  _content_key self = Some key ->
  key <> "" ->
  dict_wf items ->
  (forall v, has_field items key v ->
             get_content self (PyDict items) = Returns v)
  /\ (lacks_field items key ->
      get_content self (PyDict items) = Returns (PyStr "")).
Proof.
  intros Hkey Hne Hwf. unfold get_content. rewrite Hkey.
  destruct key as [| c key']; [congruence |]. simpl.
  split.
  - intros v Hin. now rewrite (dict_lookup_present _ v _ Hwf Hin).
  - intros Habsent. now rewrite (dict_lookup_absent _ _ Habsent).
Qed.

(** C5.  When [content_key] is unset, the content of a record is one line
    ["<key>: <value>"] per field, in the order of the record, joined by line
    feeds; for the record [{"title": "A", "body": "hello"}] it is
    ["title: A\nbody: hello"]. *)
Theorem get_content_without_key (self : Loader) :
  _content_key self = None ->
  (forall items,
      get_content self (PyDict items) = Returns (PyStr (field_lines items)))
  /\ get_content self (PyDict [("title", PyStr "A"); ("body", PyStr "hello")])
     = Returns (PyStr ("title: A" ++ LF ++ "body: hello")).
Proof.
  intros Hunset. unfold get_content. rewrite Hunset.
  split; [intros items |]; apply joined_fields_mapping.
Qed.

(** C9.  With [content_key] set to the empty string [get_content] does what
    it does with [content_key] unset, on every item: for a record it returns
    the joined ["<key>: <value>"] lines and does not look the key [""] up,
    also when the record has such a field. *)
Theorem get_content_empty_key (path : string)
    (metadata_func : option (pyval -> outcome pyval)) :
  let with_empty := {| file_path := path; _content_key := Some "";
                       _metadata_func := metadata_func |} in
  let unset := {| file_path := path; _content_key := None;
                  _metadata_func := metadata_func |} in
  (forall item, get_content with_empty item = get_content unset item)
  /\ (forall items,
         get_content with_empty (PyDict items)
         = Returns (PyStr (field_lines items)))
  /\ (forall v rest,
         get_content with_empty (PyDict (("", v) :: rest))
         = Returns (PyStr (field_lines (("", v) :: rest)))).
Proof.
  cbv zeta. repeat split; intros; unfold get_content; simpl;
    try reflexivity; apply joined_fields_mapping.
Qed.

(** *** [create_documents] *)

Lemma get_content_mapping_returns (self : Loader) (item : pyval) :
  is_mapping item = true ->
  exists content, get_content self item = Returns content.
Proof.
  destruct item; try discriminate. intros _.
  unfold get_content.
  destruct (_content_key self) as [key |];
    [destruct (str_truthy key) |];
    try rewrite joined_fields_mapping; simpl; eexists; reflexivity.
Qed.

Lemma get_content_other_raises (self : Loader) (item : pyval) :
  is_mapping item = false -> get_content self item = Raises AttributeError.
Proof.
  intros Hother. unfold get_content.
  destruct (_content_key self) as [key |];
    [destruct (str_truthy key) |];
    try (now apply joined_fields_other).
  destruct item; try reflexivity; discriminate.
Qed.

(** [Document] takes a string and a mapping, keeps them as they are, and
    raises [ValidationError] on anything else. *)
Lemma Document_new_returns (content meta : pyval) (doc : Document) :
  Document_new content meta = Returns doc ->
  page_content doc = content
  /\ metadata doc = meta
  /\ (exists text, content = PyStr text)
  /\ (exists items, meta = PyDict items).
Proof.
  unfold Document_new.
  destruct content; try discriminate; destruct meta; try discriminate.
  intros H; inversion H; subst; simpl. eauto 6.
Qed.

Lemma Document_new_raises (content meta : pyval) (e : exn) :
  Document_new content meta = Raises e -> e = ValidationError.
Proof.
  unfold Document_new.
  destruct content; destruct meta; intros H; now inversion H.
Qed.

(** The loop appends one document per item, made from that item, to the
    documents it starts with. *)
Lemma for_items_returns (self : Loader) (items : list pyval) :
  forall documents docs,
    for_items self items documents = Returns docs ->
    exists made,
      docs = (documents ++ made)%list /\ Forall2 (made_from self) items made.
Proof.
  induction items as [| item rest IH]; simpl; intros documents docs Hrun.
  - exists []. inversion Hrun. now rewrite app_nil_r.
  - destruct (get_content self item) as [content |] eqn:Hcontent;
      simpl in Hrun; [| discriminate].
    destruct (metadata_of self item) as [meta |] eqn:Hmeta;
      simpl in Hrun; [| discriminate].
    destruct (Document_new content meta) as [doc |] eqn:Hdoc;
      simpl in Hrun; [| discriminate].
    apply Document_new_returns in Hdoc as (Hc & Hm & _).
    apply IH in Hrun as (made & -> & Hmade).
    exists (doc :: made).
    rewrite <- app_assoc. split; [reflexivity |].
    constructor; [| assumption].
    split; congruence.
Qed.

(** The loop returns when every item gives a string as content and a
    mapping as metadata. *)
Lemma for_items_total (self : Loader) (items : list pyval) :
  Forall (content_is_str self) items ->
  Forall (metadata_is_mapping self) items ->
  forall documents, exists docs, for_items self items documents = Returns docs.
Proof.
  induction items as [| item rest IH]; simpl; intros Hstrs Hmeta documents.
  - eauto.
  - inversion Hstrs as [| ? ? [text Hc] Hstrs']; subst.
    inversion Hmeta as [| ? ? [fields Hm] Hmeta']; subst.
    rewrite Hc, Hm. simpl. now apply IH.
Qed.

Lemma create_documents_returns (self : Loader) (records : list pyval) :
  Forall (content_is_str self) records ->
  Forall (metadata_is_mapping self) records ->
  exists docs,
    create_documents self (PyList records) = Returns docs
    /\ length docs = length records
    /\ Forall2 (made_from self) records docs.
Proof.
  intros Hstrs Hmeta. unfold create_documents. simpl.
  destruct (for_items_total self records Hstrs Hmeta []) as [docs Hrun].
  exists docs. split; [exact Hrun |].
  apply for_items_returns in Hrun as (made & -> & Hmade). simpl.
  split; [symmetry; exact (Forall2_length Hmade) | exact Hmade].
Qed.

Lemma made_without_metadata_func (self : Loader) (items : list pyval)
    (docs : list Document) :
  _metadata_func self = None ->
  Forall2 (made_from self) items docs ->
  Forall (fun doc => metadata doc = PyDict []) docs.
Proof.
  intros Hunset Hmade.
  induction Hmade as [| item doc items docs [_ Hmeta] _ IH]; constructor.
  - unfold metadata_of in Hmeta. rewrite Hunset in Hmeta.
    simpl in Hmeta. congruence.
  - exact IH.
Qed.

Lemma made_with_metadata_func (self : Loader)
    (metadata_func : pyval -> outcome pyval) (items : list pyval)
    (docs : list Document) :
  _metadata_func self = Some metadata_func ->
  Forall2 (made_from self) items docs ->
  Forall2 (fun item doc => metadata_func item = Returns (metadata doc))
          items docs.
Proof.
  intros Hset Hmade.
  induction Hmade as [| item doc items docs [_ Hmeta] _ IH]; constructor.
  - unfold metadata_of in Hmeta. now rewrite Hset in Hmeta.
  - exact IH.
Qed.

(** C6.  Whenever [create_documents] returns documents for a sequence of
    records, there is one document per record; with [metadata_func] unset
    every document has the empty mapping as metadata, and with
    [metadata_func] set the metadata of each document is what [metadata_func]
    returns on the record the document was made from. *)
Theorem create_documents_metadata (self : Loader) (records : list pyval)
    (docs : list Document) :
  create_documents self (PyList records) = Returns docs ->
  length docs = length records
  /\ match _metadata_func self with
     | None => Forall (fun doc => metadata doc = PyDict []) docs
     | Some metadata_func =>
         Forall2 (fun record doc =>
                    metadata_func record = Returns (metadata doc))
                 records docs
     end.
Proof.
  unfold create_documents. simpl. intros Hrun.
  apply for_items_returns in Hrun as (made & -> & Hmade). simpl.
  split; [symmetry; exact (Forall2_length Hmade) |].
  destruct (_metadata_func self) as [metadata_func |] eqn:Hfunc.
  - exact (made_with_metadata_func self metadata_func _ _ Hfunc Hmade).
  - exact (made_without_metadata_func self _ _ Hfunc Hmade).
Qed.

(** *** [load] *)

(** [load] step by step: the file is opened, its bytes are parsed and the
    documents built, and only a [JSONDecodeError] from those two steps ends
    in the message and the empty list. *)
Lemma load_run (self : Loader) (w : IO.world) :
  load self w =
  match IO.files w (file_path self) with
  | inl e => (Raises (IO.oserror_of e), w)
  | inr bytes =>
      match (data <- json_load bytes ;; create_documents self data) with
      | Returns docs => (Returns docs, after_load (file_path self) [] w)
      | Raises e =>
          if isinstance e JSONDecodeError then
            (Returns [],
             after_load (file_path self) [IO.Printed invalid_json_message] w)
          else (Raises e, after_load (file_path self) [] w)
      end
  end.
Proof.
  unfold load, IO.with_open, IO.try_except, after_load.
  destruct (IO.files w (file_path self)) as [e | bytes]; [reflexivity |].
  simpl. unfold IO.mbind, IO.lift. simpl.
  destruct (json_load bytes) as [data | e]; simpl.
  - destruct (create_documents self data) as [docs | e]; simpl;
      [reflexivity |].
    destruct (isinstance e JSONDecodeError); reflexivity.
  - destruct (isinstance e JSONDecodeError); reflexivity.
Qed.

Lemma emitted_files (printed : list IO.event) :
  forall w,
    IO.files (fold_left (fun w' ev => IO.emit ev w') printed w) = IO.files w.
Proof.
  induction printed as [| ev rest IH]; intros w; simpl.
  - reflexivity.
  - now rewrite IH.
Qed.

Lemma after_load_files (path : string) (printed : list IO.event)
    (w : IO.world) :
  IO.files (after_load path printed w) = IO.files w.
Proof. unfold after_load. simpl. now rewrite emitted_files. Qed.

(** [load] leaves every file as it found it. *)
Lemma load_keeps_files (self : Loader) (w : IO.world) :
  IO.files (snd (load self w)) = IO.files w.
Proof.
  rewrite load_run.
  destruct (IO.files w (file_path self)) as [e | bytes]; [reflexivity |].
  destruct (data <- json_load bytes ;; create_documents self data)
    as [docs | e]; [| destruct (isinstance e JSONDecodeError)];
    cbn [snd]; apply after_load_files.
Qed.

(** What [load] returns or raises is decided by the file at its path:
    nothing done before (what was printed, what was opened) changes it. *)
Lemma load_reads_only_the_file (self : Loader) (w1 w2 : IO.world) :
  IO.files w1 (file_path self) = IO.files w2 (file_path self) ->
  fst (load self w1) = fst (load self w2).
Proof.
  intros Hsame. rewrite !load_run, Hsame.
  destruct (IO.files w2 (file_path self)) as [e | bytes]; [reflexivity |].
  destruct (data <- json_load bytes ;; create_documents self data)
    as [docs | e]; [| destruct (isinstance e JSONDecodeError)]; reflexivity.
Qed.

(** When the content of a record is a string: always with [content_key]
    unset or empty, and with a key when the record has no such field or the
    field holds a string. *)
Lemma content_is_str_cases (self : Loader) (items : list (string * pyval)) :
  content_is_str self (PyDict items)
  <-> match _content_key self with
      | Some key =>
          str_truthy key = false
          \/ dict_lookup key items = None
          \/ exists text, dict_lookup key items = Some (PyStr text)
      | None => True
      end.
Proof.
  unfold content_is_str, get_content.
  destruct (_content_key self) as [key |].
  - destruct (str_truthy key); simpl.
    + split.
      * intros [text Hc]. right.
        destruct (dict_lookup key items) as [v |]; [| now left].
        right. exists text. congruence.
      * intros [Hfalse | [-> | [text ->]]]; [discriminate | |]; eauto.
    + rewrite joined_fields_mapping. split; eauto.
  - rewrite joined_fields_mapping. split; eauto.
Qed.

(** C1, as amended.  When the file holds a JSON array of N records
    (mappings), each of which gives a string as content and a mapping as
    metadata, [load] returns exactly N documents: the i-th document is the
    one made from the i-th record, none is dropped and none is added. *)
Theorem load_one_document_per_record (self : Loader) (w : IO.world)
    (bytes : string) (records : list pyval) :
  IO.files w (file_path self) = inr bytes ->
  json_load bytes = Returns (PyList records) ->
  Forall (fun record => is_mapping record = true) records ->
  Forall (content_is_str self) records ->
  Forall (metadata_is_mapping self) records ->
  exists docs,
    load self w = (Returns docs, after_load (file_path self) [] w)
    /\ length docs = length records
    /\ Forall2 (made_from self) records docs.
Proof.
  intros Hfile Hparse _ Hstrs Hmeta.
  destruct (create_documents_returns self records Hstrs Hmeta)
    as (docs & Hrun & Hlen & Hmade).
  exists docs. rewrite load_run, Hfile, Hparse. simpl.
  rewrite Hrun. auto.
Qed.

(** C2.  When [json.load] rejects the contents of the file as malformed
    JSON, [load] does not raise: it prints the message
    ["Error: Invalid JSON format"] and returns the empty list. *)
Theorem load_malformed_json_returns_empty (self : Loader) (w : IO.world)
    (bytes : string) (e : exn) :
  IO.files w (file_path self) = inr bytes ->
  json_load bytes = Raises e ->
  isinstance e JSONDecodeError = true ->
  load self w =
  (Returns [],
   after_load (file_path self) [IO.Printed invalid_json_message] w).
Proof.
  intros Hfile Hparse Hclass.
  rewrite load_run, Hfile, Hparse. simpl. now rewrite Hclass.
Qed.

Lemma oserror_of_is_OSError (reason : IO.errno) :
  isinstance (IO.oserror_of reason) OSError = true.
Proof. destruct reason; reflexivity. Qed.

(** C3.  When the file at the path does not exist or cannot be opened,
    [load] raises the error of [open], an instance of [OSError]; it returns
    no list, prints nothing and opens nothing. *)
Theorem load_unopenable_file_raises (self : Loader) (w : IO.world)
    (reason : IO.errno) :
  IO.files w (file_path self) = inl reason ->
  load self w = (Raises (IO.oserror_of reason), w)
  /\ isinstance (IO.oserror_of reason) OSError = true
  /\ fst (load self w) <> Returns [].
Proof.
  intros Hfile. rewrite load_run, Hfile. simpl.
  split; [reflexivity |]. split; [apply oserror_of_is_OSError |].
  discriminate.
Qed.

(** C7.  Two calls of [load] on the same loader, the second in the world the
    first one left, give the same outcome: equal lists of documents, or the
    same exception.  The first call changes no file, and more generally the
    outcome is the same in any two worlds that have the same file at the
    path of the loader. *)
Theorem load_twice_same_documents (self : Loader) (w : IO.world) :
  fst (load self (snd (load self w))) = fst (load self w)
  /\ IO.files (snd (load self w)) = IO.files w
  /\ (forall w',
         IO.files w' (file_path self) = IO.files w (file_path self) ->
         fst (load self w') = fst (load self w)).
Proof.
  split; [| split].
  - apply load_reads_only_the_file. now rewrite load_keeps_files.
  - apply load_keeps_files.
  - intros w' Hsame. now apply load_reads_only_the_file.
Qed.

(** C8, as amended.  An exception raised while the documents are built that
    is not an instance of [JSONDecodeError] is not turned into an empty
    result: [load] raises it, after closing the file and without printing. *)
Theorem load_propagates_building_errors (self : Loader) (w : IO.world)
    (bytes : string) (data : pyval) (e : exn) :
  IO.files w (file_path self) = inr bytes ->
  json_load bytes = Returns data ->
  create_documents self data = Raises e ->
  isinstance e JSONDecodeError = false ->
  load self w = (Raises e, after_load (file_path self) [] w).
Proof.
  intros Hfile Hparse Hbuild Hclass.
  rewrite load_run, Hfile, Hparse. simpl. now rewrite Hbuild, Hclass.
Qed.

(** A [JSONDecodeError] raised while the documents are built is handled as
    one raised by the parser: the message, and the empty list. *)
Lemma load_swallows_building_JSONDecodeError (self : Loader) (w : IO.world)
    (bytes : string) (data : pyval) (e : exn) :
  IO.files w (file_path self) = inr bytes ->
  json_load bytes = Returns data ->
  create_documents self data = Raises e ->
  isinstance e JSONDecodeError = true ->
  load self w =
  (Returns [],
   after_load (file_path self) [IO.Printed invalid_json_message] w).
Proof.
  intros Hfile Hparse Hbuild Hclass.
  rewrite load_run, Hfile, Hparse. simpl. now rewrite Hbuild, Hclass.
Qed.

(** *** [__init__] *)

Lemma init_run (path : string) (content_key : option string)
    (metadata_func : option (pyval -> outcome pyval)) (w : IO.world) :
  __init__ path content_key metadata_func w =
  match Path_resolve w path with
  | Returns resolved =>
      (Returns {| file_path := resolved;
                  _content_key := content_key;
                  _metadata_func := metadata_func |}, w)
  | Raises e => (Raises e, w)
  end.
Proof.
  unfold __init__. simpl. unfold IO.mbind, IO.inspect.
  destruct (Path_resolve w path); reflexivity.
Qed.

(** C10, as amended.  [__init__] opens no file and prints nothing, and does
    not ask whether anything is at the path.  Whenever [Path.resolve]
    returns on the path, [__init__] returns, leaves the world as it is,
    stores the resolved path, and stores [content_key] and [metadata_func]
    as they are given; that the file is missing or cannot be opened shows
    only when [load] is called.  When [Path.resolve] raises, [__init__]
    raises the same exception. *)
Theorem init_follows_resolve (path : string) (content_key : option string)
    (metadata_func : option (pyval -> outcome pyval)) (w : IO.world) :
  (forall resolved,
      Path_resolve w path = Returns resolved ->
      __init__ path content_key metadata_func w
      = (Returns {| file_path := resolved;
                    _content_key := content_key;
                    _metadata_func := metadata_func |}, w)
      /\ (forall reason,
             IO.files w resolved = inl reason ->
             (self <- __init__ path content_key metadata_func ;; load self) w
             = (Raises (IO.oserror_of reason), w)))
  /\ (forall e,
         Path_resolve w path = Raises e ->
         __init__ path content_key metadata_func w = (Raises e, w)).
Proof.
  split.
  - intros resolved Hresolved. split.
    + now rewrite init_run, Hresolved.
    + intros reason Hfile.
      change ((self <- __init__ path content_key metadata_func ;;
               load self) w)
        with (IO.mbind (__init__ path content_key metadata_func) load w).
      unfold IO.mbind. rewrite init_run, Hresolved.
      rewrite load_run. cbn [file_path]. now rewrite Hfile.
  - intros e Hraises. now rewrite init_run, Hraises.
Qed.

(** *** The first item that fails *)

Lemma for_items_app (self : Loader) (before after : list pyval) :
  forall documents,
    for_items self (before ++ after)%list documents =
    (docs <- for_items self before documents ;; for_items self after docs).
Proof.
  induction before as [| item rest IH]; intros documents; simpl.
  - reflexivity.
  - destruct (get_content self item) as [content |]; simpl; [| reflexivity].
    destruct (metadata_of self item) as [meta |]; simpl; [| reflexivity].
    destruct (Document_new content meta) as [doc |]; simpl; [| reflexivity].
    apply IH.
Qed.

(** An element that is not a mapping, after records that were converted,
    makes [create_documents] raise [AttributeError]. *)
Lemma create_documents_non_mapping (self : Loader)
    (records : list pyval) (other : pyval) (rest : list pyval) :
  Forall (content_is_str self) records ->
  Forall (metadata_is_mapping self) records ->
  is_mapping other = false ->
  create_documents self (PyList (records ++ other :: rest)%list)
  = Raises AttributeError.
Proof.
  intros Hmaps Hmeta Hother. unfold create_documents. simpl.
  rewrite for_items_app.
  destruct (for_items_total self records Hmaps Hmeta []) as [docs ->].
  simpl. now rewrite (get_content_other_raises self other Hother).
Qed.

(** An exception of the metadata function on a record, after records that
    were converted, is what [create_documents] raises. *)
Lemma create_documents_metadata_raises (self : Loader)
    (records : list pyval) (record : pyval) (rest : list pyval) (e : exn) :
  Forall (content_is_str self) records ->
  Forall (metadata_is_mapping self) records ->
  is_mapping record = true ->
  metadata_of self record = Raises e ->
  create_documents self (PyList (records ++ record :: rest)%list) = Raises e.
Proof.
  intros Hmaps Hmeta Hmap Hraise. unfold create_documents. simpl.
  rewrite for_items_app.
  destruct (for_items_total self records Hmaps Hmeta []) as [docs ->].
  destruct (get_content_mapping_returns self record Hmap) as [content Hc].
  simpl. now rewrite Hc, Hraise.
Qed.

(** A record whose content is not a string, after records that were
    converted, makes [create_documents] raise [ValidationError]. *)
Lemma create_documents_content_not_str (self : Loader)
    (records : list pyval) (record : pyval) (rest : list pyval)
    (content : pyval) :
  Forall (content_is_str self) records ->
  Forall (metadata_is_mapping self) records ->
  get_content self record = Returns content ->
  (forall text, content <> PyStr text) ->
  metadata_returns self record ->
  create_documents self (PyList (records ++ record :: rest)%list)
  = Raises ValidationError.
Proof.
  intros Hstrs Hmeta Hcontent Hother [meta Hm].
  unfold create_documents. simpl. rewrite for_items_app.
  destruct (for_items_total self records Hstrs Hmeta []) as [docs ->].
  simpl. rewrite Hcontent, Hm. simpl.
  destruct content; try reflexivity. now destruct (Hother s).
Qed.

(** Through [load]: the [AttributeError] of an element that is not a mapping
    reaches the caller, and the documents made before it are lost. *)
Lemma load_non_mapping_element (self : Loader) (w : IO.world)
    (bytes : string) (records : list pyval) (other : pyval)
    (rest : list pyval) :
  IO.files w (file_path self) = inr bytes ->
  json_load bytes = Returns (PyList (records ++ other :: rest)%list) ->
  Forall (content_is_str self) records ->
  Forall (metadata_is_mapping self) records ->
  is_mapping other = false ->
  load self w = (Raises AttributeError, after_load (file_path self) [] w).
Proof.
  intros Hfile Hparse Hmaps Hmeta Hother.
  rewrite load_run, Hfile, Hparse. simpl.
  now rewrite (create_documents_non_mapping self records other rest).
Qed.

End Properties.

(** ** The reference decoder

    Every scanner leaves less input than it was given, so the bound that
    [decode] starts from is never reached: what [decode] raises is decided
    by the bytes alone. *)

Section Decoder.
Import Reference.
Local Open Scope nat_scope.

Lemma skip_ws_length (s : string) :
  String.length (skip_ws s) <= String.length s.
Proof.
  induction s as [| c rest IH]; simpl; [lia |].
  destruct (is_ws c); simpl; lia.
Qed.

Lemma scan_pieces_shorter_upto (n : nat) :
  forall s ps rest,
    String.length s <= n ->
    scan_pieces s = Scanned ps rest ->
    String.length rest < String.length s.
Proof.
  induction n as [| n IH]; intros s ps rest Hn Hscan.
  - destruct s; simpl in *; [discriminate | lia].
  - destruct s as [| c s1]; simpl in Hscan; [discriminate |].
    simpl in Hn.
    destruct (Ascii.eqb c DQUOTE).
    { inversion Hscan; subst. simpl. lia. }
    destruct (byte_in 0 31 c); [discriminate |].
    destruct (Ascii.eqb c BACKSLASH).
    + destruct s1 as [| e s2]; [discriminate |].
      destruct (Ascii.eqb e "u"%char).
      * destruct s2 as [| h1 [| h2 [| h3 [| h4 s3]]]]; try discriminate.
        destruct (hex4 h1 h2 h3 h4); [| discriminate].
        destruct (scan_pieces s3) as [ps' rest' | |] eqn:Hrest;
          try discriminate.
        inversion Hscan; subst.
        apply IH in Hrest; simpl in *; lia.
      * destruct (simple_escape e); [| discriminate].
        destruct (scan_pieces s2) as [ps' rest' | |] eqn:Hrest;
          try discriminate.
        inversion Hscan; subst.
        apply IH in Hrest; simpl in *; lia.
    + destruct (scan_pieces s1) as [ps' rest' | |] eqn:Hrest;
        try discriminate.
      inversion Hscan; subst.
      apply IH in Hrest; simpl in *; lia.
Qed.

Lemma scan_pieces_bounded_upto (n : nat) :
  forall s, String.length s <= n -> scan_pieces s <> TooDeep.
Proof.
  induction n as [| n IH]; intros s Hn.
  - destruct s; simpl in *; [discriminate | lia].
  - destruct s as [| c s1]; simpl; [discriminate |]. simpl in Hn.
    destruct (Ascii.eqb c DQUOTE); [discriminate |].
    destruct (byte_in 0 31 c); [discriminate |].
    destruct (Ascii.eqb c BACKSLASH).
    + destruct s1 as [| e s2]; [discriminate |].
      destruct (Ascii.eqb e "u"%char).
      * destruct s2 as [| h1 [| h2 [| h3 [| h4 s3]]]]; try discriminate.
        destruct (hex4 h1 h2 h3 h4); [| discriminate].
        destruct (scan_pieces s3); discriminate.
      * destruct (simple_escape e); [| discriminate].
        destruct (scan_pieces s2); discriminate.
    + specialize (IH s1 ltac:(lia)).
      destruct (scan_pieces s1); try discriminate. contradiction.
Qed.

Lemma scan_string_shorter (s text rest : string) :
  scan_string s = Scanned text rest -> String.length rest < String.length s.
Proof.
  unfold scan_string.
  destruct (scan_pieces s) as [ps rest' | |] eqn:Hscan; try discriminate.
  intros H; inversion H; subst.
  exact (scan_pieces_shorter_upto (String.length s) s ps rest (le_n _) Hscan).
Qed.

Lemma scan_string_bounded (s : string) : scan_string s <> TooDeep.
Proof.
  unfold scan_string.
  pose proof (scan_pieces_bounded_upto (String.length s) s (le_n _)) as H.
  destruct (scan_pieces s); try discriminate. contradiction.
Qed.

Lemma take_digits_length (s : string) :
  String.length (snd (take_digits s)) <= String.length s.
Proof.
  induction s as [| c rest IH]; simpl; [lia |].
  destruct (is_digit c); simpl; [| lia].
  destruct (take_digits rest); simpl in *. lia.
Qed.

Lemma scan_integer_shorter (s i rest : string) :
  scan_integer s = Some (i, rest) -> String.length rest < String.length s.
Proof.
  unfold scan_integer.
  destruct s as [| c s1]; [discriminate |].
  destruct (Ascii.eqb c "-"%char).
  - destruct s1 as [| d s2]; [discriminate |].
    destruct (Ascii.eqb d "0"%char).
    + intros H; inversion H; subst; simpl; lia.
    + destruct (is_digit d) eqn:Hd; [| discriminate].
      pose proof (take_digits_length (String d s2)) as Hlen.
      destruct (take_digits (String d s2)) as [ds rest'] eqn:Htake.
      intros H; inversion H; subst.
      simpl in Htake. rewrite Hd in Htake.
      pose proof (take_digits_length s2) as Hlen2.
      destruct (take_digits s2) as [ds2 rest2]. inversion Htake; subst.
      simpl in *. lia.
  - destruct (Ascii.eqb c "0"%char).
    + intros H; inversion H; subst; simpl; lia.
    + destruct (is_digit c) eqn:Hd; [| discriminate].
      destruct (take_digits (String c s1)) as [ds rest'] eqn:Htake.
      intros H; inversion H; subst.
      simpl in Htake. rewrite Hd in Htake.
      pose proof (take_digits_length s1) as Hlen2.
      destruct (take_digits s1) as [ds2 rest2]. inversion Htake; subst.
      simpl in *. lia.
Qed.

Lemma scan_fraction_length (s : string) :
  String.length (snd (scan_fraction s)) <= String.length s.
Proof.
  unfold scan_fraction. destruct s as [| c s1]; simpl; [lia |].
  destruct (Ascii.eqb c "."%char); simpl; [| lia].
  pose proof (take_digits_length s1) as Hlen.
  destruct (take_digits s1) as [[| d ds] rest]; simpl in *; lia.
Qed.

Lemma scan_exponent_length (s : string) :
  String.length (snd (scan_exponent s)) <= String.length s.
Proof.
  unfold scan_exponent. destruct s as [| e s1]; simpl; [lia |].
  destruct (Ascii.eqb e "e"%char || Ascii.eqb e "E"%char); simpl; [| lia].
  destruct s1 as [| c s2]; simpl; [lia |].
  destruct (Ascii.eqb c "-"%char || Ascii.eqb c "+"%char).
  - pose proof (take_digits_length s2) as Hlen.
    destruct (take_digits s2) as [[| d ds] rest]; simpl in *; lia.
  - pose proof (take_digits_length (String c s2)) as Hlen.
    destruct (take_digits (String c s2)) as [[| d ds] rest]; simpl in *; lia.
Qed.

Lemma scan_number_shorter (s : string) (v : pyval) (rest : string) :
  scan_number s = Some (v, rest) -> String.length rest < String.length s.
Proof.
  unfold scan_number.
  destruct (scan_integer s) as [[i r0] |] eqn:Hint; [| discriminate].
  apply scan_integer_shorter in Hint.
  pose proof (scan_fraction_length r0) as Hf.
  destruct (scan_fraction r0) as [frac r1]. simpl in Hf.
  pose proof (scan_exponent_length r1) as He.
  destruct (scan_exponent r1) as [exp r2]. simpl in He.
  destruct frac, exp; intros H; inversion H; subst; lia.
Qed.

Lemma strip_prefix_length (p : string) :
  forall s rest,
    strip_prefix p s = Some rest ->
    String.length s = String.length p + String.length rest.
Proof.
  induction p as [| a p' IH]; intros s rest H; simpl in *.
  - now inversion H.
  - destruct s as [| b s']; [discriminate |].
    destruct (Ascii.eqb a b); [| discriminate].
    simpl. now rewrite (IH _ _ H).
Qed.

Lemma scan_atom_shorter (s : string) (v : pyval) (rest : string) :
  scan_atom s = Scanned v rest -> String.length rest < String.length s.
Proof.
  unfold scan_atom.
  repeat match goal with
         | |- context [strip_prefix ?p s] =>
             let H := fresh "Hp" in
             destruct (strip_prefix p s) eqn:H;
             [apply strip_prefix_length in H; simpl in H |]
         end;
    try (intros H; inversion H; subst; lia).
  all: destruct (scan_number s) as [[v' r'] |] eqn:Hnum;
    try (intros H; inversion H; subst; lia);
    try (apply scan_number_shorter in Hnum; intros H; inversion H; subst; lia).
Qed.

Lemma scan_atom_bounded (s : string) : scan_atom s <> TooDeep.
Proof.
  unfold scan_atom.
  repeat match goal with
         | |- context [strip_prefix ?p s] => destruct (strip_prefix p s)
         end; try discriminate;
    destruct (scan_number s) as [[v' r'] |]; discriminate.
Qed.

Lemma scan_shorter (depth : nat) :
  (forall s v rest,
      scan_once depth s = Scanned v rest ->
      String.length rest < String.length s)
  /\ (forall seen s vs rest,
         scan_elements depth seen s = Scanned vs rest ->
         String.length rest < String.length s)
  /\ (forall seen s items rest,
         scan_members depth seen s = Scanned items rest ->
         String.length rest < String.length s).
Proof.
  induction depth as [| depth (IHonce & IHelements & IHmembers)].
  - repeat split; intros; discriminate.
  - split; [| split].
    + intros s v rest H. simpl in H.
      destruct s as [| c s1]; [discriminate |].
      destruct (Ascii.eqb c DQUOTE).
      { destruct (scan_string s1) as [text r |  |] eqn:Hs; try discriminate.
        apply scan_string_shorter in Hs. inversion H; subst. simpl. lia. }
      destruct (Ascii.eqb c "{"%char).
      { pose proof (skip_ws_length s1) as Hws.
        destruct (skip_ws s1) as [| c1 r1]; [discriminate |].
        destruct (Ascii.eqb c1 "}"%char).
        - inversion H; subst. simpl in *. lia.
        - destruct (scan_members depth [] (String c1 r1)) as [items r |  |]
            eqn:Hm; try discriminate.
          apply IHmembers in Hm. inversion H; subst. simpl in *. lia. }
      destruct (Ascii.eqb c "["%char).
      { pose proof (skip_ws_length s1) as Hws.
        destruct (skip_ws s1) as [| c1 r1]; [discriminate |].
        destruct (Ascii.eqb c1 "]"%char).
        - inversion H; subst. simpl in *. lia.
        - destruct (scan_elements depth [] (String c1 r1)) as [vs r |  |]
            eqn:He; try discriminate.
          apply IHelements in He. inversion H; subst. simpl in *. lia. }
      now apply scan_atom_shorter in H.
    + intros seen s vs rest H. simpl in H.
      destruct (scan_once depth s) as [v r |  |] eqn:Hv; try discriminate.
      apply IHonce in Hv.
      pose proof (skip_ws_length r) as Hws.
      destruct (skip_ws r) as [| c r1]; [discriminate |].
      destruct (Ascii.eqb c "]"%char).
      * inversion H; subst. simpl in *. lia.
      * destruct (Ascii.eqb c ","%char); [| discriminate].
        apply IHelements in H.
        pose proof (skip_ws_length r1). simpl in *. lia.
    + intros seen s items rest H. simpl in H.
      destruct s as [| q s1]; [discriminate |].
      destruct (Ascii.eqb q DQUOTE); [| discriminate].
      destruct (scan_string s1) as [key r1 |  |] eqn:Hk; try discriminate.
      apply scan_string_shorter in Hk.
      pose proof (skip_ws_length r1) as Hws1.
      destruct (skip_ws r1) as [| colon r2]; [discriminate |].
      destruct (Ascii.eqb colon ":"%char); [| discriminate].
      pose proof (skip_ws_length r2) as Hws2.
      destruct (scan_once depth (skip_ws r2)) as [v r3 |  |] eqn:Hv;
        try discriminate.
      apply IHonce in Hv.
      pose proof (skip_ws_length r3) as Hws3.
      destruct (skip_ws r3) as [| c r4]; [discriminate |].
      destruct (Ascii.eqb c "}"%char).
      * inversion H; subst. simpl in *. lia.
      * destruct (Ascii.eqb c ","%char); [| discriminate].
        apply IHmembers in H.
        pose proof (skip_ws_length r4). simpl in *. lia.
Qed.

Lemma scan_bounded (depth : nat) :
  (forall s, 2 * String.length s < depth -> scan_once depth s <> TooDeep)
  /\ (forall seen s,
         2 * String.length s + 1 < depth ->
         scan_elements depth seen s <> TooDeep)
  /\ (forall seen s,
         2 * String.length s + 1 < depth ->
         scan_members depth seen s <> TooDeep).
Proof.
  induction depth as [| depth (IHonce & IHelements & IHmembers)].
  - repeat split; intros; lia.
  - split; [| split].
    + intros s Hd. simpl.
      destruct s as [| c s1]; [discriminate |]. simpl in Hd.
      destruct (Ascii.eqb c DQUOTE).
      { pose proof (scan_string_bounded s1).
        destruct (scan_string s1); try discriminate. contradiction. }
      destruct (Ascii.eqb c "{"%char).
      { pose proof (skip_ws_length s1) as Hws.
        destruct (skip_ws s1) as [| c1 r1] eqn:Hbody; [discriminate |].
        destruct (Ascii.eqb c1 "}"%char); [discriminate |].
        specialize (IHmembers [] (String c1 r1) ltac:(simpl in *; lia)).
        destruct (scan_members depth [] (String c1 r1));
          try discriminate. contradiction. }
      destruct (Ascii.eqb c "["%char).
      { pose proof (skip_ws_length s1) as Hws.
        destruct (skip_ws s1) as [| c1 r1] eqn:Hbody; [discriminate |].
        destruct (Ascii.eqb c1 "]"%char); [discriminate |].
        specialize (IHelements [] (String c1 r1) ltac:(simpl in *; lia)).
        destruct (scan_elements depth [] (String c1 r1));
          try discriminate. contradiction. }
      apply scan_atom_bounded.
    + intros seen s Hd. simpl.
      pose proof (IHonce s ltac:(lia)) as Honce.
      destruct (scan_once depth s) as [v r |  |] eqn:Hv;
        try discriminate; [| contradiction].
      apply (proj1 (scan_shorter depth)) in Hv.
      pose proof (skip_ws_length r) as Hws.
      destruct (skip_ws r) as [| c r1]; [discriminate |].
      destruct (Ascii.eqb c "]"%char); [discriminate |].
      destruct (Ascii.eqb c ","%char); [| discriminate].
      apply IHelements.
      pose proof (skip_ws_length r1). simpl in *. lia.
    + intros seen s Hd. simpl.
      destruct s as [| q s1]; [discriminate |].
      destruct (Ascii.eqb q DQUOTE); [| discriminate].
      pose proof (scan_string_bounded s1) as Hsb.
      destruct (scan_string s1) as [key r1 |  |] eqn:Hk;
        try discriminate; [| contradiction].
      apply scan_string_shorter in Hk.
      pose proof (skip_ws_length r1) as Hws1.
      destruct (skip_ws r1) as [| colon r2]; [discriminate |].
      destruct (Ascii.eqb colon ":"%char); [| discriminate].
      pose proof (skip_ws_length r2) as Hws2.
      pose proof (IHonce (skip_ws r2) ltac:(simpl in *; lia)) as Honce.
      destruct (scan_once depth (skip_ws r2)) as [v r3 |  |] eqn:Hv;
        try discriminate; [| contradiction].
      apply (proj1 (scan_shorter depth)) in Hv.
      pose proof (skip_ws_length r3) as Hws3.
      destruct (skip_ws r3) as [| c r4]; [discriminate |].
      destruct (Ascii.eqb c "}"%char); [discriminate |].
      destruct (Ascii.eqb c ","%char); [| discriminate].
      apply IHmembers.
      pose proof (skip_ws_length r4). simpl in *. lia.
Qed.

(** The bound [decode] gives the scanner is never reached. *)
Lemma decode_not_too_deep (bytes : string) :
  decode bytes <> Raises RecursionError.
Proof.
  unfold decode.
  destruct (utf8_valid bytes); [| discriminate].
  pose proof (proj1 (scan_bounded (S (2 * String.length bytes)))
                (skip_ws bytes)) as H.
  pose proof (skip_ws_length bytes) as Hws.
  specialize (H ltac:(lia)).
  destruct (scan_once (S (2 * String.length bytes)) (skip_ws bytes))
    as [v r | |]; [destruct (skip_ws r) | |]; try discriminate.
  contradiction.
Qed.

(** The members of a parsed object have different names: a repeated name
    replaces the value read before. *)
Lemma scan_members_wf (depth : nat) :
  forall seen s items rest,
    dict_wf seen ->
    scan_members depth seen s = Scanned items rest ->
    dict_wf items.
Proof.
  induction depth as [| depth IH]; intros seen s items rest Hwf H.
  - discriminate.
  - simpl in H.
    destruct s as [| q s1]; [discriminate |].
    destruct (Ascii.eqb q DQUOTE); [| discriminate].
    destruct (scan_string s1) as [key r1 |  |]; try discriminate.
    destruct (skip_ws r1) as [| colon r2]; [discriminate |].
    destruct (Ascii.eqb colon ":"%char); [| discriminate].
    destruct (scan_once depth (skip_ws r2)) as [v r3 |  |];
      try discriminate.
    destruct (skip_ws r3) as [| c r4]; [discriminate |].
    destruct (Ascii.eqb c "}"%char).
    + inversion H; subst. now apply dict_set_wf.
    + destruct (Ascii.eqb c ","%char); [| discriminate].
      apply IH in H; [exact H | now apply dict_set_wf].
Qed.

(** Text in UTF-8 is either parsed or rejected with [JSONDecodeError]. *)
Lemma decode_text (bytes : string) :
  utf8_valid bytes = true ->
  (exists v, decode bytes = Returns v)
  \/ decode bytes = Raises JSONDecodeError.
Proof.
  intros Hutf8. unfold decode. rewrite Hutf8.
  pose proof (proj1 (scan_bounded (S (2 * String.length bytes)))
                (skip_ws bytes)) as Hbound.
  pose proof (skip_ws_length bytes) as Hws.
  specialize (Hbound ltac:(lia)).
  destruct (scan_once (S (2 * String.length bytes)) (skip_ws bytes))
    as [v r | |]; [destruct (skip_ws r) | |]; eauto.
  contradiction.
Qed.

(** With the reference runtime, [load] on a file of text that the decoder
    does not parse prints the message and returns the empty list. *)
Lemma load_rejected_text (self : Loader) (w : IO.world) (bytes : string) :
  IO.files w (file_path self) = inr bytes ->
  utf8_valid bytes = true ->
  (forall v, decode bytes <> Returns v) ->
  load (rt := ReferenceRuntime.runtime) self w =
  (Returns [],
   after_load (file_path self) [IO.Printed invalid_json_message] w).
Proof.
  intros Hfile Hutf8 Hrejected.
  rewrite load_run, Hfile.
  change (json_load bytes) with (decode bytes).
  destruct (decode_text bytes Hutf8) as [[v Hv] | ->].
  - now apply Hrejected in Hv.
  - reflexivity.
Qed.

End Decoder.

(** ** The scenarios, run *)

Import Scenarios Reference ReferenceRuntime.

Ltac forall_records := repeat constructor; try (eexists; reflexivity).

(** The file of the specification's scenarios, read with
    [content_key="body"] and no metadata function: two documents,
    ["hello"] and ["world"], both with empty metadata. *)
Example load_articles_by_body :
  fst (load (rt := runtime) body_loader (disk articles_path articles_json))
  = Returns [ {| page_content := PyStr "hello"; metadata := PyDict [] |};
              {| page_content := PyStr "world"; metadata := PyDict [] |} ].
Proof. vm_compute. reflexivity. Qed.

(** The same file read with no [content_key]. *)
Example load_articles_plain :
  fst (load (rt := runtime) plain_loader (disk articles_path articles_json))
  = Returns
      [ {| page_content := PyStr ("title: A" ++ LF ++ "body: hello");
           metadata := PyDict [] |};
        {| page_content := PyStr ("title: B" ++ LF ++ "body: world");
           metadata := PyDict [] |} ].
Proof. vm_compute. reflexivity. Qed.

(** What the process did for it: the file was opened and closed. *)
Example load_articles_trace :
  IO.trace
    (snd (load (rt := runtime) body_loader (disk articles_path articles_json)))
  = [IO.Opened articles_path; IO.Closed articles_path].
Proof. vm_compute. reflexivity. Qed.

(** C1, as amended, on the file of the scenarios. *)
Lemma load_one_document_per_record_witness :
  exists docs,
    load (rt := runtime) body_loader (disk articles_path articles_json)
    = (Returns docs,
       after_load articles_path [] (disk articles_path articles_json))
    /\ length docs = 2
    /\ Forall2 (made_from (rt := runtime) body_loader)
               [article_A; article_B] docs.
Proof.
  apply (load_one_document_per_record (rt := runtime) body_loader
           (disk articles_path articles_json) articles_json
           [article_A; article_B]).
  - reflexivity.
  - vm_compute. reflexivity.
  - forall_records.
  - forall_records.
  - forall_records.
Defined.

(** C1 as it is stated fails on a record whose selected field is not a
    string: the file is a well-formed array of one mapping, [get_content]
    returns [None] for it, [Document] refuses that content, and [load]
    raises [ValidationError] instead of returning one document. *)
Lemma load_null_body_counterexample :
  json_load (PyRuntime := runtime) null_body_json
  = Returns (PyList [PyDict [("title", PyStr "A"); ("body", PyNone)]])
  /\ is_mapping (PyDict [("title", PyStr "A"); ("body", PyNone)]) = true
  /\ _metadata_func body_loader = None
  /\ get_content (rt := runtime) body_loader
       (PyDict [("title", PyStr "A"); ("body", PyNone)])
     = Returns PyNone
  /\ fst (load (rt := runtime) body_loader
            (disk articles_path null_body_json))
     = Raises ValidationError.
Proof. repeat split; vm_compute; reflexivity. Qed.

(** C2 on the file [{invalid json]. *)
Lemma load_malformed_json_returns_empty_witness :
  load (rt := runtime) body_loader (disk articles_path "{invalid json")
  = (Returns [],
     after_load articles_path [IO.Printed "Error: Invalid JSON format"]
       (disk articles_path "{invalid json")).
Proof.
  apply (load_malformed_json_returns_empty (rt := runtime) body_loader
           (disk articles_path "{invalid json") "{invalid json"
           JSONDecodeError).
  - reflexivity.
  - vm_compute. reflexivity.
  - reflexivity.
Defined.

(** C3 with no file at the path. *)
Lemma load_unopenable_file_raises_witness :
  load (rt := runtime) body_loader empty_disk
  = (Raises FileNotFoundError, empty_disk)
  /\ isinstance FileNotFoundError OSError = true
  /\ fst (load (rt := runtime) body_loader empty_disk) <> Returns [].
Proof.
  apply (load_unopenable_file_raises (rt := runtime) body_loader empty_disk
           IO.ENOENT).
  reflexivity.
Defined.

(** C4, as amended, on the first record of the scenarios. *)
Lemma get_content_with_key_witness :
  (forall v,
      has_field [("title", PyStr "A"); ("body", PyStr "hello")] "body" v ->
      get_content (rt := runtime) body_loader article_A = Returns v)
  /\ (lacks_field [("title", PyStr "A"); ("body", PyStr "hello")] "body" ->
      get_content (rt := runtime) body_loader article_A
      = Returns (PyStr "")).
Proof.
  apply (get_content_with_key (rt := runtime) body_loader "body"
           [("title", PyStr "A"); ("body", PyStr "hello")]).
  - reflexivity.
  - discriminate.
  - repeat constructor; simpl; intuition discriminate.
Defined.

(** C4 as it is stated fails for the key [""]: the record has a field of
    that name and the content is not its value; and a record without such a
    field does not get the empty string. *)
Lemma get_content_empty_key_counterexample :
  _content_key empty_key_loader = Some ""
  /\ dict_wf [("", PyStr "hidden"); ("title", PyStr "A")]
  /\ has_field [("", PyStr "hidden"); ("title", PyStr "A")] "" (PyStr "hidden")
  /\ get_content (rt := runtime) empty_key_loader
       (PyDict [("", PyStr "hidden"); ("title", PyStr "A")])
     <> Returns (PyStr "hidden")
  /\ lacks_field [("title", PyStr "A")] ""
  /\ get_content (rt := runtime) empty_key_loader
       (PyDict [("title", PyStr "A")])
     <> Returns (PyStr "").
Proof.
  repeat split.
  - repeat constructor; simpl; intuition discriminate.
  - now left.
  - vm_compute. discriminate.
  - unfold lacks_field. simpl. intuition discriminate.
  - vm_compute. discriminate.
Qed.

(** C5 on the loader with no [content_key]. *)
Lemma get_content_without_key_witness :
  (forall items,
      get_content (rt := runtime) plain_loader (PyDict items)
      = Returns (PyStr (field_lines (rt := runtime) items)))
  /\ get_content (rt := runtime) plain_loader
       (PyDict [("title", PyStr "A"); ("body", PyStr "hello")])
     = Returns (PyStr ("title: A" ++ LF ++ "body: hello")).
Proof.
  apply (get_content_without_key (rt := runtime) plain_loader).
  reflexivity.
Defined.

(** Values that are not strings are rendered as [str()] does. *)
Example get_content_renders_values :
  get_content (rt := runtime) plain_loader
    (PyDict [("id", PyInt 7); ("tags", PyList [PyStr "a"; PyStr "b"]);
             ("draft", PyBool false); ("by", PyNone)])
  = Returns (PyStr ("id: 7" ++ LF ++ "tags: ['a', 'b']" ++ LF
                    ++ "draft: False" ++ LF ++ "by: None")).
Proof. vm_compute. reflexivity. Qed.

(** C6 with a metadata function that keeps the title. *)
Lemma create_documents_metadata_witness :
  length [ {| page_content := PyStr "hello";
              metadata := PyDict [("title", PyStr "A")] |};
           {| page_content := PyStr "world";
              metadata := PyDict [("title", PyStr "B")] |} ]
  = length [article_A; article_B]
  /\ match _metadata_func titled_loader with
     | None =>
         Forall (fun doc => metadata doc = PyDict [])
           [ {| page_content := PyStr "hello";
                metadata := PyDict [("title", PyStr "A")] |};
             {| page_content := PyStr "world";
                metadata := PyDict [("title", PyStr "B")] |} ]
     | Some metadata_func =>
         Forall2 (fun record doc =>
                    metadata_func record = Returns (metadata doc))
           [article_A; article_B]
           [ {| page_content := PyStr "hello";
                metadata := PyDict [("title", PyStr "A")] |};
             {| page_content := PyStr "world";
                metadata := PyDict [("title", PyStr "B")] |} ]
     end.
Proof.
  apply (create_documents_metadata (rt := runtime) titled_loader
           [article_A; article_B]).
  vm_compute. reflexivity.
Defined.

(** With no metadata function every document has the empty mapping. *)
Example create_documents_without_metadata_func :
  create_documents (rt := runtime) body_loader
    (PyList [article_A; article_B])
  = Returns [ {| page_content := PyStr "hello"; metadata := PyDict [] |};
              {| page_content := PyStr "world"; metadata := PyDict [] |} ].
Proof. vm_compute. reflexivity. Qed.

(** C8, as amended, on an array that holds a number: the [AttributeError]
    of the second element comes out of [load]. *)
Lemma load_propagates_building_errors_witness :
  load (rt := runtime) body_loader (disk articles_path mixed_json)
  = (Raises AttributeError,
     after_load articles_path [] (disk articles_path mixed_json)).
Proof.
  apply (load_propagates_building_errors (rt := runtime) body_loader
           (disk articles_path mixed_json) mixed_json
           (PyList [article_A; PyInt 7]) AttributeError).
  - reflexivity.
  - vm_compute. reflexivity.
  - vm_compute. reflexivity.
  - reflexivity.
Defined.

(** C8 as it is stated fails: the file is well-formed JSON, the metadata
    function raises [JSONDecodeError] on its record while the documents are
    built, and [load] prints the message and returns the empty list. *)
Lemma load_swallows_metadata_func_error_counterexample :
  json_load (PyRuntime := runtime) notes_json
  = Returns (PyList [PyDict [("body", PyStr "x"); ("meta", PyStr "{oops")]])
  /\ metadata_of notes_loader
       (PyDict [("body", PyStr "x"); ("meta", PyStr "{oops")])
     = Raises JSONDecodeError
  /\ create_documents (rt := runtime) notes_loader
       (PyList [PyDict [("body", PyStr "x"); ("meta", PyStr "{oops")]])
     = Raises JSONDecodeError
  /\ fst (load (rt := runtime) notes_loader (disk notes_path notes_json))
     = Returns []
  /\ IO.trace
       (snd (load (rt := runtime) notes_loader (disk notes_path notes_json)))
     = [IO.Opened notes_path; IO.Printed "Error: Invalid JSON format";
        IO.Closed notes_path].
Proof. repeat split; vm_compute; reflexivity. Qed.

(** C10, as amended, on a path where there is no file: the path resolves,
    the loader is made, and the world is as it was. *)
Lemma init_follows_resolve_witness :
  __init__ (rt := runtime) "articles.json" (Some "body") None empty_disk
  = (Returns {| file_path := "/work/articles.json";
                _content_key := Some "body";
                _metadata_func := None |}, empty_disk)
  /\ (forall reason,
         IO.files empty_disk "/work/articles.json" = inl reason ->
         (self <- __init__ (rt := runtime) "articles.json" (Some "body") None ;;
          load (rt := runtime) self) empty_disk
         = (Raises (IO.oserror_of reason), empty_disk)).
Proof.
  apply (proj1 (init_follows_resolve (rt := runtime) "articles.json"
                  (Some "body") None empty_disk) "/work/articles.json").
  reflexivity.
Defined.

(** C10 as it is stated fails: on a path with a NUL character
    [Path.resolve] raises [ValueError], and on a path whose links form a
    loop it raises [RuntimeError]; [__init__] raises with it and no loader
    is made. *)
Lemma init_raises_counterexample :
  fst (__init__ (rt := runtime) nul_path (Some "body") None empty_disk)
  = Raises ValueError
  /\ fst (__init__ (rt := runtime) "loop.json" None None loop_disk)
     = Raises RuntimeError.
Proof. split; vm_compute; reflexivity. Qed.

(** A selected field that is a number is refused by [Document] as well. *)
Example create_documents_number_content :
  create_documents (rt := runtime) body_loader
    (PyList [PyDict [("body", PyInt 7)]])
  = Raises ValidationError.
Proof. vm_compute. reflexivity. Qed.

(** The missing-file scenario: the loader is made for a path where there is
    no file, and the error comes when [load] is called. *)
Example missing_file_scenario :
  (self <- __init__ (rt := runtime) "articles.json" (Some "body") None ;;
   load (rt := runtime) self) empty_disk
  = (Raises FileNotFoundError, empty_disk).
Proof. vm_compute. reflexivity. Qed.

(** A top-level value that is not an array is iterated as Python iterates
    it: an object with no member gives no document, a number is not
    iterable. *)
Example load_top_level_object :
  fst (load (rt := runtime) body_loader (disk articles_path "{}"))
  = Returns []
  /\ fst (load (rt := runtime) body_loader
            (disk articles_path (json_text "{'title': 'A'}")))
     = Raises AttributeError
  /\ fst (load (rt := runtime) body_loader (disk articles_path "3"))
     = Raises TypeError.
Proof. repeat split; vm_compute; reflexivity. Qed.

(** Bytes that are not UTF-8 are not a parse failure: the error of the
    decoder is not caught. *)
Example load_undecodable_bytes :
  fst (load (rt := runtime) body_loader
         (disk articles_path (String (ascii_of_nat 255) EmptyString)))
  = Raises UnicodeDecodeError.
Proof. vm_compute. reflexivity. Qed.

(** ** Further properties of the four methods *)

From Stdlib Require Import Permutation.

Module Items.
Section Items.
Context {rt : PyRuntime}.

(** The three steps of the loop body return on the item: the content is a
    string and the metadata a mapping, so that [Document] takes them. *)
Definition item_converts (self : Loader) (item : pyval) : Prop :=
  content_is_str self item /\ metadata_is_mapping self item.

(** The loop body raises [e] on the item: from the content; or, the content
    being extracted, from the metadata; or, both being there, from
    [Document]. *)
Definition item_fails (self : Loader) (item : pyval) (e : exn) : Prop :=
  get_content self item = Raises e
  \/ (exists content,
         get_content self item = Returns content
         /\ metadata_of self item = Raises e)
  \/ (exists content meta,
         get_content self item = Returns content
         /\ metadata_of self item = Returns meta
         /\ Document_new content meta = Raises e).

End Items.
End Items.

Import Items.

Section MoreProperties.
Context {rt : PyRuntime}.

(** *** Shared steps *)

(** The documents the loop starts with stay in front of those it makes. *)
Lemma for_items_from (self : Loader) (items : list pyval) :
  forall documents,
    for_items self items documents =
    (made <- for_items self items [] ;; ret (documents ++ made)%list).
Proof.
  induction items as [| item rest IH]; intros documents; simpl.
  - now rewrite app_nil_r.
  - destruct (get_content self item) as [content |]; simpl; [| reflexivity].
    destruct (metadata_of self item) as [meta |]; simpl; [| reflexivity].
    destruct (Document_new content meta) as [doc |]; simpl; [| reflexivity].
    rewrite (IH (documents ++ _)%list), (IH [_]).
    destruct (for_items self rest []) as [made |]; simpl; [| reflexivity].
    now rewrite <- app_assoc.
Qed.

Lemma for_items_returns_converts (self : Loader) (items : list pyval) :
  forall documents docs,
    for_items self items documents = Returns docs ->
    Forall (item_converts self) items.
Proof.
  induction items as [| item rest IH]; simpl; intros documents docs Hrun.
  - constructor.
  - destruct (get_content self item) as [content |] eqn:Hcontent;
      simpl in Hrun; [| discriminate].
    destruct (metadata_of self item) as [meta |] eqn:Hmeta;
      simpl in Hrun; [| discriminate].
    destruct (Document_new content meta) as [doc |] eqn:Hdoc;
      simpl in Hrun; [| discriminate].
    apply Document_new_returns in Hdoc as (_ & _ & [text ->] & [fields ->]).
    constructor; [| exact (IH _ _ Hrun)].
    split; [exists text | exists fields]; assumption.
Qed.

Lemma converts_total (self : Loader) (items : list pyval) :
  Forall (item_converts self) items ->
  forall documents, exists docs, for_items self items documents = Returns docs.
Proof.
  intros Hok. apply for_items_total.
  - eapply Forall_impl; [| exact Hok]. now intros item [Hc _].
  - eapply Forall_impl; [| exact Hok]. now intros item [_ Hm].
Qed.

(** *** [get_content] and [create_documents], outcome by outcome *)

(** X1.  Whatever [content_key] is, [get_content] returns on every mapping
    and raises on everything else, and the only exception it raises is
    [AttributeError]. *)
Theorem get_content_outcome (self : Loader) (item : pyval) :
  match get_content self item with
  | Returns _ => is_mapping item = true
  | Raises e => e = AttributeError /\ is_mapping item = false
  end.
Proof.
  destruct (is_mapping item) eqn:Hmap.
  - destruct (get_content_mapping_returns self item Hmap) as [content ->].
    reflexivity.
  - rewrite (get_content_other_raises self item Hmap). auto.
Qed.

(** X2.  [create_documents] returns a list of documents for a list of items
    exactly when every item gives a string as content and a mapping as
    metadata; an item that is not a mapping, a selected field that is not a
    string, or a metadata function that raises or returns something else
    than a mapping makes the call raise. *)
Theorem create_documents_returns_iff (self : Loader) (items : list pyval) :
  (exists docs, create_documents self (PyList items) = Returns docs)
  <-> Forall (content_is_str self) items
      /\ Forall (metadata_is_mapping self) items.
Proof.
  split.
  - intros [docs Hrun]. unfold create_documents in Hrun. simpl in Hrun.
    apply for_items_returns_converts in Hrun.
    split; eapply Forall_impl; try exact Hrun; now intros item [Hc Hm].
  - intros [Hstrs Hmeta].
    destruct (create_documents_returns self items Hstrs Hmeta)
      as (docs & Hrun & _).
    now exists docs.
Qed.

Lemma for_items_raises_split (self : Loader) (items : list pyval) :
  forall documents e,
    for_items self items documents = Raises e ->
    exists before item after,
      items = (before ++ item :: after)%list
      /\ Forall (item_converts self) before
      /\ item_fails self item e.
Proof.
  induction items as [| item rest IH]; simpl; intros documents e Hrun.
  - discriminate.
  - destruct (get_content self item) as [content |] eqn:Hcontent;
      simpl in Hrun.
    + destruct (metadata_of self item) as [meta |] eqn:Hmeta; simpl in Hrun.
      * destruct (Document_new content meta) as [doc |] eqn:Hdoc;
          simpl in Hrun.
        -- apply IH in Hrun as (before & bad & after & -> & Hok & Hbad).
           exists (item :: before), bad, after.
           split; [reflexivity |]. split; [| exact Hbad].
           constructor; [| exact Hok].
           apply Document_new_returns in Hdoc
             as (_ & _ & [text ->] & [fields ->]).
           split; [exists text | exists fields]; assumption.
        -- inversion Hrun; subst.
           exists [], item, rest. split; [reflexivity |].
           split; [constructor |]. right. right. eauto.
      * inversion Hrun; subst.
        exists [], item, rest. split; [reflexivity |].
        split; [constructor |]. right. left. eauto.
    + inversion Hrun; subst.
      exists [], item, rest. split; [reflexivity |].
      split; [constructor |]. now left.
Qed.

Lemma for_items_first_failure (self : Loader) (before : list pyval)
    (item : pyval) (after : list pyval) (e : exn) :
  Forall (item_converts self) before ->
  item_fails self item e ->
  forall documents,
    for_items self (before ++ item :: after)%list documents = Raises e.
Proof.
  intros Hok Hbad documents. rewrite for_items_app.
  destruct (converts_total self before Hok documents) as [docs ->].
  simpl.
  destruct Hbad as [-> | [(content & -> & Hmeta)
                         | (content & meta & -> & Hmeta & Hdoc)]]; simpl.
  - reflexivity.
  - now rewrite Hmeta.
  - rewrite Hmeta. simpl. now rewrite Hdoc.
Qed.

(** X3.  [create_documents] raises [e] on a list exactly when the first item
    on which the loop body does not return raises [e], be it from
    [get_content], from the metadata function or from [Document]: the items
    before it were converted, their documents are dropped, and the items
    after it are not looked at. *)
Theorem create_documents_raises_iff (self : Loader) (items : list pyval)
    (e : exn) :
  create_documents self (PyList items) = Raises e
  <-> exists before item after,
        items = (before ++ item :: after)%list
        /\ Forall (item_converts self) before
        /\ item_fails self item e.
Proof.
  unfold create_documents. simpl. split.
  - apply for_items_raises_split.
  - intros (before & item & after & -> & Hok & Hbad).
    now apply for_items_first_failure.
Qed.

(** X4.  The documents of a list put together from two lists are the
    documents of the first followed by those of the second; when one of the
    two raises, so does the whole, the first list going first. *)
Theorem create_documents_app (self : Loader) (first second : list pyval) :
  create_documents self (PyList (first ++ second)%list) =
  (docs1 <- create_documents self (PyList first) ;;
   docs2 <- create_documents self (PyList second) ;;
   ret (docs1 ++ docs2)%list).
Proof.
  unfold create_documents. simpl. rewrite for_items_app.
  destruct (for_items self first []) as [docs1 |]; simpl; [| reflexivity].
  apply for_items_from.
Qed.

Lemma str_chars_nonempty (c : ascii) (rest : string) :
  exists ch chs, str_chars (String c rest) = ch :: chs.
Proof.
  simpl. destruct (str_chars rest) as [| ch chs]; [eauto |].
  destruct (starts_with_continuation ch); eauto.
Qed.

(** X5.  Data that is not a list is iterated as Python iterates it: an
    object or a string with nothing in it gives no document and no error,
    any other object or string raises [AttributeError] on its first key or
    character, and [None], a boolean or a number raises [TypeError]. *)
Theorem create_documents_not_a_list (self : Loader) :
  (forall items,
      create_documents self (PyDict items)
      = match items with
        | [] => Returns []
        | _ :: _ => Raises AttributeError
        end)
  /\ (forall s,
         create_documents self (PyStr s)
         = match s with
           | EmptyString => Returns []
           | String _ _ => Raises AttributeError
           end)
  /\ create_documents self PyNone = Raises TypeError
  /\ (forall b, create_documents self (PyBool b) = Raises TypeError)
  /\ (forall n, create_documents self (PyInt n) = Raises TypeError)
  /\ (forall literal,
         create_documents self (PyFloat literal) = Raises TypeError).
Proof.
  unfold create_documents. repeat split; try reflexivity.
  - intros [| [k v] rest]; simpl; [reflexivity |].
    now rewrite (get_content_other_raises self (PyStr k)).
  - intros [| c rest]; [reflexivity |].
    destruct (str_chars_nonempty c rest) as (ch & chs & Hchars).
    cbn [py_iter]. rewrite Hchars. simpl.
    now rewrite (get_content_other_raises self (PyStr ch)).
Qed.

(** *** [load], outcome by outcome *)

Lemma emitted_trace (printed : list IO.event) :
  forall w,
    IO.trace (fold_left (fun w' ev => IO.emit ev w') printed w)
    = (IO.trace w ++ printed)%list.
Proof.
  induction printed as [| ev rest IH]; intros w; simpl.
  - now rewrite app_nil_r.
  - rewrite IH. simpl. now rewrite <- app_assoc.
Qed.

Lemma after_load_trace (path : string) (printed : list IO.event)
    (w : IO.world) :
  IO.trace (after_load path printed w)
  = (IO.trace w ++ IO.Opened path :: printed ++ [IO.Closed path])%list.
Proof.
  unfold after_load. simpl. rewrite emitted_trace. simpl.
  now rewrite <- !app_assoc.
Qed.

(** X6.  What one call of [load] does to the outside is one of three things:
    nothing, when the file cannot be opened; opening and closing the file of
    the loader; or opening it, printing the message and closing it, and
    then the call returns the empty list.  The file is closed whether the
    call returns or raises, and no other path is opened. *)
Theorem load_events (self : Loader) (w : IO.world) :
  exists added,
    IO.trace (snd (load self w)) = (IO.trace w ++ added)%list
    /\ ((added = []
         /\ exists reason, IO.files w (file_path self) = inl reason)
        \/ (added = [IO.Opened (file_path self); IO.Closed (file_path self)]
            /\ exists bytes, IO.files w (file_path self) = inr bytes)
        \/ (added = [IO.Opened (file_path self);
                     IO.Printed invalid_json_message;
                     IO.Closed (file_path self)]
            /\ fst (load self w) = Returns [])).
Proof.
  rewrite load_run.
  destruct (IO.files w (file_path self)) as [reason | bytes] eqn:Hfile.
  - exists []. simpl. rewrite app_nil_r. eauto.
  - destruct (data <- json_load bytes ;; create_documents self data)
      as [docs | e]; [| destruct (isinstance e JSONDecodeError)];
      cbn [fst snd]; rewrite after_load_trace; eexists;
      (split; [reflexivity |]); simpl; eauto.
Qed.

Lemma oserror_of_not_JSONDecodeError (reason : IO.errno) :
  isinstance (IO.oserror_of reason) JSONDecodeError = false.
Proof. destruct reason; reflexivity. Qed.

(** X7.  [load] never raises a [JSONDecodeError]: whatever it raises is an
    exception of another class. *)
Theorem load_never_raises_JSONDecodeError (self : Loader) (w : IO.world)
    (e : exn) :
  fst (load self w) = Raises e -> isinstance e JSONDecodeError = false.
Proof.
  rewrite load_run.
  destruct (IO.files w (file_path self)) as [reason | bytes].
  - simpl. intros H; inversion H; subst.
    apply oserror_of_not_JSONDecodeError.
  - destruct (data <- json_load bytes ;; create_documents self data)
      as [docs | e']; [discriminate |].
    destruct (isinstance e' JSONDecodeError) eqn:Hclass; [discriminate |].
    simpl. intros H; inversion H; subst. exact Hclass.
Qed.

(** X8.  When [load] returns a list, the file was opened, and either the
    message was printed and the list is empty, or nothing was printed and
    the list has one document for every element of the parsed value, each
    made from that element, in order: [load] never returns some of the
    documents. *)
Theorem load_returns_all_or_nothing (self : Loader) (w : IO.world)
    (docs : list Document) :
  fst (load self w) = Returns docs ->
  exists bytes,
    IO.files w (file_path self) = inr bytes
    /\ ((docs = []
         /\ snd (load self w)
            = after_load (file_path self)
                [IO.Printed invalid_json_message] w)
        \/ (exists data items,
               json_load bytes = Returns data
               /\ py_iter data = Returns items
               /\ Forall2 (made_from self) items docs
               /\ snd (load self w) = after_load (file_path self) [] w)).
Proof.
  rewrite load_run.
  destruct (IO.files w (file_path self)) as [reason | bytes];
    [discriminate |].
  intros Hreturns. exists bytes. split; [reflexivity |].
  destruct (json_load bytes) as [data | e] eqn:Hparse; simpl in *.
  - destruct (create_documents self data) as [docs' | e] eqn:Hbuild.
    + inversion Hreturns; subst. right.
      unfold create_documents in Hbuild.
      destruct (py_iter data) as [items |] eqn:Hiter;
        simpl in Hbuild; [| discriminate].
      apply for_items_returns in Hbuild as (made & -> & Hmade).
      exists data, items. auto.
    + destruct (isinstance e JSONDecodeError); [| discriminate].
      inversion Hreturns; subst. left. auto.
  - destruct (isinstance e JSONDecodeError); [| discriminate].
    inversion Hreturns; subst. left. auto.
Qed.

(** *** The two strategies are independent *)

Lemma made_from_same_content (self1 self2 : Loader) (items : list pyval) :
  (forall item, get_content self1 item = get_content self2 item) ->
  forall docs1 docs2,
    Forall2 (made_from self1) items docs1 ->
    Forall2 (made_from self2) items docs2 ->
    map page_content docs1 = map page_content docs2.
Proof.
  intros Hsame.
  induction items as [| item rest IH]; intros docs1 docs2 Hmade1 Hmade2;
    inversion Hmade1 as [| ? doc1 ? rest1 [Hc1 _] Hrest1]; subst;
    inversion Hmade2 as [| ? doc2 ? rest2 [Hc2 _] Hrest2]; subst; simpl.
  - reflexivity.
  - rewrite (IH rest1 rest2 Hrest1 Hrest2).
    rewrite Hsame, Hc2 in Hc1. now inversion Hc1.
Qed.

Lemma made_from_same_metadata (self1 self2 : Loader) (items : list pyval) :
  (forall item, metadata_of self1 item = metadata_of self2 item) ->
  forall docs1 docs2,
    Forall2 (made_from self1) items docs1 ->
    Forall2 (made_from self2) items docs2 ->
    map metadata docs1 = map metadata docs2.
Proof.
  intros Hsame.
  induction items as [| item rest IH]; intros docs1 docs2 Hmade1 Hmade2;
    inversion Hmade1 as [| ? doc1 ? rest1 [_ Hm1] Hrest1]; subst;
    inversion Hmade2 as [| ? doc2 ? rest2 [_ Hm2] Hrest2]; subst; simpl.
  - reflexivity.
  - rewrite (IH rest1 rest2 Hrest1 Hrest2).
    rewrite Hsame, Hm2 in Hm1. now inversion Hm1.
Qed.

(** X9.  The content of a document depends on [content_key] only and its
    metadata on [metadata_func] only: two loaders with the same
    [content_key] give documents with the same contents from the same
    data, whatever their metadata functions and paths, and two loaders with
    the same [metadata_func] give the same metadata, whatever their
    content keys. *)
Theorem create_documents_strategies_independent (self1 self2 : Loader)
    (data : pyval) (docs1 docs2 : list Document) :
  create_documents self1 data = Returns docs1 ->
  create_documents self2 data = Returns docs2 ->
  (_content_key self1 = _content_key self2 ->
   map page_content docs1 = map page_content docs2)
  /\ (_metadata_func self1 = _metadata_func self2 ->
      map metadata docs1 = map metadata docs2).
Proof.
  unfold create_documents. intros Hrun1 Hrun2.
  destruct (py_iter data) as [items |]; simpl in *; [| discriminate].
  apply for_items_returns in Hrun1 as (made1 & -> & Hmade1).
  apply for_items_returns in Hrun2 as (made2 & -> & Hmade2).
  simpl. split; intros Hsame.
  - apply (made_from_same_content self1 self2 items); auto.
    intros item. unfold get_content. now rewrite Hsame.
  - apply (made_from_same_metadata self1 self2 items); auto.
    intros item. unfold metadata_of. now rewrite Hsame.
Qed.

(** *** The order of the fields *)

Lemma dict_lookup_in (key : string) (v : pyval)
    (items : list (string * pyval)) :
  dict_lookup key items = Some v -> has_field items key v.
Proof.
  unfold has_field.
  induction items as [| [k w] rest IH]; simpl; [discriminate |].
  destruct (String.eqb_spec key k) as [-> | _].
  - intros H; inversion H; subst. now left.
  - intros H. right. now apply IH.
Qed.

Lemma dict_lookup_none (key : string) (items : list (string * pyval)) :
  dict_lookup key items = None -> lacks_field items key.
Proof.
  unfold lacks_field, dict_keys.
  induction items as [| [k w] rest IH]; simpl; [tauto |].
  destruct (String.eqb_spec key k) as [-> | Hne]; [discriminate |].
  intros Hnone [Heq | Hin]; [congruence | now apply IH].
Qed.

Lemma dict_lookup_reordered (key : string)
    (items items' : list (string * pyval)) :
  dict_wf items ->
  Permutation items items' ->
  dict_lookup key items = dict_lookup key items'.
Proof.
  intros Hwf Hperm.
  assert (dict_wf items') as Hwf'.
  { unfold dict_wf, dict_keys in *.
    eapply Permutation_NoDup; [| exact Hwf]. now apply Permutation_map. }
  destruct (dict_lookup key items) as [v |] eqn:Hlookup; symmetry.
  - apply dict_lookup_present; [exact Hwf' |].
    apply dict_lookup_in in Hlookup. unfold has_field in *.
    eapply Permutation_in; eassumption.
  - apply dict_lookup_absent. apply dict_lookup_none in Hlookup.
    unfold lacks_field, dict_keys in *. intros Hin. apply Hlookup.
    eapply Permutation_in; [| exact Hin].
    apply Permutation_map. now apply Permutation_sym.
Qed.

(** X10.  With a [content_key] that is not empty the content of a record
    does not depend on the order of its fields: two records with the same
    fields in different orders have the same content. *)
Theorem get_content_any_field_order (self : Loader) (key : string)
    (items items' : list (string * pyval)) :
  _content_key self = Some key ->
  key <> "" ->
  dict_wf items ->
  Permutation items items' ->
  get_content self (PyDict items) = get_content self (PyDict items').
Proof.
  intros Hkey Hne Hwf Hperm. unfold get_content. rewrite Hkey.
  destruct key as [| c key']; [congruence |]. simpl.
  now rewrite (dict_lookup_reordered _ items items' Hwf Hperm).
Qed.

End MoreProperties.

(** *** On the scenarios *)

(** X7 with no file at the path: what comes out is [FileNotFoundError]. *)
Lemma load_never_raises_JSONDecodeError_witness :
  isinstance FileNotFoundError JSONDecodeError = false.
Proof.
  apply (load_never_raises_JSONDecodeError (rt := runtime) body_loader
           empty_disk FileNotFoundError).
  reflexivity.
Defined.

(** X8 on the file of the scenarios. *)
Lemma load_returns_all_or_nothing_witness :
  exists bytes,
    IO.files (disk articles_path articles_json) (file_path body_loader)
    = inr bytes
    /\ (([ {| page_content := PyStr "hello"; metadata := PyDict [] |};
           {| page_content := PyStr "world"; metadata := PyDict [] |} ] = []
         /\ snd (load (rt := runtime) body_loader
                   (disk articles_path articles_json))
            = after_load (file_path body_loader)
                [IO.Printed invalid_json_message]
                (disk articles_path articles_json))
        \/ (exists data items,
               json_load (PyRuntime := runtime) bytes = Returns data
               /\ py_iter data = Returns items
               /\ Forall2 (made_from (rt := runtime) body_loader) items
                    [ {| page_content := PyStr "hello";
                         metadata := PyDict [] |};
                      {| page_content := PyStr "world";
                         metadata := PyDict [] |} ]
               /\ snd (load (rt := runtime) body_loader
                         (disk articles_path articles_json))
                  = after_load (file_path body_loader) []
                      (disk articles_path articles_json))).
Proof.
  apply (load_returns_all_or_nothing (rt := runtime) body_loader
           (disk articles_path articles_json)).
  vm_compute. reflexivity.
Defined.

(** X9 on two loaders that differ in the metadata function only. *)
Lemma create_documents_strategies_independent_witness :
  (_content_key body_loader = _content_key titled_loader ->
   map page_content
     [ {| page_content := PyStr "hello"; metadata := PyDict [] |};
       {| page_content := PyStr "world"; metadata := PyDict [] |} ]
   = map page_content
       [ {| page_content := PyStr "hello";
            metadata := PyDict [("title", PyStr "A")] |};
         {| page_content := PyStr "world";
            metadata := PyDict [("title", PyStr "B")] |} ])
  /\ (_metadata_func body_loader = _metadata_func titled_loader ->
      map metadata
        [ {| page_content := PyStr "hello"; metadata := PyDict [] |};
          {| page_content := PyStr "world"; metadata := PyDict [] |} ]
      = map metadata
          [ {| page_content := PyStr "hello";
               metadata := PyDict [("title", PyStr "A")] |};
            {| page_content := PyStr "world";
               metadata := PyDict [("title", PyStr "B")] |} ]).
Proof.
  apply (create_documents_strategies_independent (rt := runtime)
           body_loader titled_loader (PyList [article_A; article_B])).
  - vm_compute. reflexivity.
  - vm_compute. reflexivity.
Defined.

(** X10 on the first record of the scenarios and the same record with its
    fields the other way round. *)
Lemma get_content_any_field_order_witness :
  get_content (rt := runtime) body_loader
    (PyDict [("title", PyStr "A"); ("body", PyStr "hello")])
  = get_content (rt := runtime) body_loader
      (PyDict [("body", PyStr "hello"); ("title", PyStr "A")]).
Proof.
  apply (get_content_any_field_order (rt := runtime) body_loader "body").
  - reflexivity.
  - discriminate.
  - repeat constructor; simpl; intuition discriminate.
  - apply perm_swap.
Defined.

(** With no [content_key] the order of the fields shows in the content. *)
Example get_content_field_order_shows :
  get_content (rt := runtime) plain_loader
    (PyDict [("title", PyStr "A"); ("body", PyStr "hello")])
  <> get_content (rt := runtime) plain_loader
       (PyDict [("body", PyStr "hello"); ("title", PyStr "A")]).
Proof. vm_compute. discriminate. Qed.
